(** * Stateful testing: run records, replay and shrink moves

    A shallow embedding of [hypothesis/stateful.py]: the explorable-system
    contract ([GenericStateMachine]), the seeded run record
    ([StateMachineRunner]) with its in-place replay, the strategy adapter
    ([StateMachineSearchStrategy]) with its canonical serialized form and
    its shrink moves, and the declarative rule builder
    ([RuleBasedStateMachine]).

    Python objects are dynamically typed; the embedding fixes one type per
    role ([Value], [Template], [Param]) and keeps them abstract.  Python
    exceptions are values of [exn] carried by [result]; generators are run
    to completion and give the list of what they yielded together with the
    exception that ended them, if any. *)

From Stdlib Require Import ZArith List String Lia.
From stdpp Require Import base option list gmap strings pretty.
From Equations Require Import Equations.

Set Warnings "-register-all".
Local Open Scope Z_scope.

(** ** Exceptions and results *)

Inductive exn : Type :=
| BadData (msg : string)
| InvalidDefinition (msg : string)
| UnsatisfiedAssumption
| AssertionError
| IndexError
| KeyError (key : string)
| Exception (msg : string).

Inductive result (A : Type) : Type :=
| Ok (a : A)
| Raise (e : exn).
Arguments Ok {A} a.
Arguments Raise {A} e.

#[global] Instance result_ret : MRet result := fun A a => Ok a.
#[global] Instance result_bind : MBind result := fun A B f m =>
  match m with
  | Ok a => f a
  | Raise e => Raise e
  end.

(** A generator run to completion: the values it yielded, and the exception
    that escaped it (if one did). *)
Definition gen (A : Type) : Type := (list A * option exn)%type.

Definition gen_done {A : Type} : gen A := ([], None).

(** [yield r; rest]: when building [r] raises, the generator dies there. *)
Definition gen_yield {A : Type} (r : result A) (rest : gen A) : gen A :=
  match r with
  | Ok a => (a :: fst rest, snd rest)
  | Raise e => ([], Some e)
  end.

(** ** Basic data: the canonical serialized form

    Basic data is [None], booleans, integers, text and lists of basic
    data. *)
Inductive basic : Type :=
| BNone
| BBool (b : bool)
| BInt (n : Z)
| BText (s : string)
| BList (l : list basic).

Inductive pytype : Type := list_type | integer_types.

(** Python's [isinstance]; [bool] is a subclass of [int]. *)
Definition isinstance (value : basic) (typ : pytype) : bool :=
  match typ, value with
  | list_type, BList _ => true
  | integer_types, BInt _ => true
  | integer_types, BBool _ => true
  | _, _ => false
  end.

(** The integer an [integer_types] value compares as ([True == 1]). *)
Definition int_value (value : basic) : Z :=
  match value with
  | BInt n => n
  | BBool true => 1
  | _ => 0
  end.

(** Modelled from the spec: [check_data_type] and [check_length] of
    [hypothesis.searchstrategy.strategies], which is not among the sources;
    a mismatch is the structural bad-data signal. *)
Definition check_data_type (typ : pytype) (value : basic) : result unit :=
  if isinstance value typ then Ok tt else Raise (BadData "wrong type").

Definition check_length (l : nat) (value : basic) : result unit :=
  match value with
  | BList xs =>
      if decide (length xs = l) then Ok tt else Raise (BadData "wrong length")
  | BText s =>
      if decide (String.length s = l) then Ok tt
      else Raise (BadData "wrong length")
  | _ => Raise (BadData "no length")
  end.

(** [data[i]] on basic data. *)
Definition getitem (data : basic) (i : nat) : result basic :=
  match data with
  | BList xs =>
      match xs !! i with
      | Some x => Ok x
      | None => Raise IndexError
      end
  | _ => Raise (Exception "TypeError")
  end.

(** ** Random numbers

    Modelled from the spec: Python's [random.Random] (standard library);
    any seed-addressable deterministic generator will do.  The generator
    state is threaded explicitly. *)
Class PyRandom : Type := {
  rng : Type;
  Random : Z -> rng;
  getrandbits : Z -> rng -> Z * rng;
  randint : Z -> Z -> rng -> Z * rng;
  shuffle : list nat -> rng -> list nat * rng
}.

(** The three kinds of Python object the engine passes around. *)
Class PyObjects : Type := {
  Value : Type;
  Template : Type;
  Param : Type
}.

(** ** Settings *)

Record Settings : Type := { stateful_step_count : Z }.

(** [Settings.define_setting(name='stateful_step_count', default=50)]. *)
Definition Settings_initial : Settings := {| stateful_step_count := 50 |}.

(** ** The generic search-strategy protocol

    Modelled from the spec: the [SearchStrategy] interface of
    [hypothesis.searchstrategy.strategies] (an external collaborator): draw
    a parameter, draw a template, reify, serialize, deserialize, enumerate
    shrink moves.  Every operation may raise. *)
Module SearchStrategy.
Section Protocol.
Context `{PR : PyRandom, PO : PyObjects}.

(** A shrink move: from a random source and a value, candidates. *)
Definition simplifier (A : Type) : Type := rng -> A -> gen A.

Record t : Type := {
  draw_parameter : rng -> result Param;
  draw_template : rng -> Param -> result Template;
  reify : Template -> result Value;
  to_basic : Template -> result basic;
  from_basic : basic -> result Template;
  simplifiers : rng -> Template -> gen (simplifier Template) * rng
}.
(** The serialization contract: what [to_basic] produced, [from_basic]
    reads back as the same template. *)
Definition roundtrips (strategy : t) : Prop :=
  forall (template : Template) (data : basic),
    to_basic strategy template = Ok data ->
    from_basic strategy data = Ok template.
End Protocol.
End SearchStrategy.

(** ** The explorable-system contract *)
Module GenericStateMachine.
Section Contract.
Context `{PR : PyRandom, PO : PyObjects}.

(** The methods of a state machine whose instances have state [M]; each
    may mutate the instance and may raise. *)
Record t (M : Type) : Type := {
  steps : M -> result SearchStrategy.t * M;
  execute_step : Value -> M -> result unit * M;
  print_step : Value -> M -> result unit * M;
  teardown : M -> result unit * M
}.
(** Every strategy that [steps] hands out honours the serialization
    contract. *)
Definition reproducible {M : Type} (sm : t M) : Prop :=
  forall (m m' : M) (strategy : SearchStrategy.t),
    steps M sm m = (Ok strategy, m') -> SearchStrategy.roundtrips strategy.


End Contract.
Arguments steps {_ _ M} _ _.
Arguments execute_step {_ _ M} _ _ _.
Arguments print_step {_ _ M} _ _ _.
Arguments teardown {_ _ M} _ _.
End GenericStateMachine.

(** ** Seeds and record entries *)
Section Seeds.
Context `{PR : PyRandom}.

(** The loop of [seeds]: [n] more draws, appended in order. *)
Fixpoint seeds_loop (n : nat) (random : rng) : list Z :=
  match n with
  | O => []
  | S n' =>
      let '(x, random') := getrandbits 64 random in
      x :: seeds_loop n' random'
  end.

Definition seeds (starting n_steps : Z) : list Z :=
  seeds_loop (Z.to_nat n_steps) (Random starting).
End Seeds.

(** A record entry: the deletion sentinel, or the pair of the strategy that
    produced the step (unknown after deserialization) and its payload. *)
Inductive entry `{PyRandom, PyObjects} : Type :=
| TOMBSTONE
| Entry (strategy : option SearchStrategy.t) (data : basic).

Definition is_tombstone `{PyRandom, PyObjects} (r : entry) : bool :=
  match r with
  | TOMBSTONE => true
  | Entry _ _ => false
  end.

(** ** Run records and their replay *)
Module StateMachineRunner.
Section Runner.
Context `{PR : PyRandom, PO : PyObjects}.

Record t : Type := {
  parameter_seed : Z;
  template_seed : Z;
  n_steps : Z;
  templates : list Z;
  record : list entry
}.

(** The constructor.  [templates or seeds(...)] takes the given list
    unless it is missing or empty; [list(record or ())] copies. *)
Definition __init__ (parameter_seed template_seed n_steps : Z)
    (record : option (list entry)) (templates : option (list Z)) : result t :=
  if negb ((0 <=? n_steps) && (n_steps <=? 1000000)) then Raise AssertionError
  else
    let templates :=
      match templates with
      | Some (s :: l) => s :: l
      | _ => seeds template_seed n_steps
      end in
    if negb (n_steps <=? Z.of_nat (length templates)) then Raise AssertionError
    else Ok {| parameter_seed := parameter_seed;
               template_seed := template_seed;
               n_steps := n_steps;
               templates := templates;
               record := default [] record |}.

(** What the two assertions of the constructor establish. *)
Definition invariant (self : t) : Prop :=
  0 <= n_steps self <= 1000000 /\
  n_steps self <= Z.of_nat (length (templates self)).

(** The calls [run] makes, in order, each tagged with the loop index. *)
Inductive event : Type :=
| EvSteps (i : nat)
| EvFromBasic (i : nat) (data : basic)
| EvDrawParameter (i : nat) (seed : Z)
| EvDrawTemplate (i : nat) (seed : Z)
| EvPrintStep (i : nat) (value : Value)
| EvExecuteStep (i : nat) (value : Value)
| EvTeardown.

(** Everything a replay mutates: the runner's own record, the machine
    instance, and (as a ghost) the log of calls. *)
Record world (M : Type) : Type := {
  w_record : list entry;
  w_machine : M;
  w_calls : list event
}.
Arguments w_record {M} _.
Arguments w_machine {M} _.
Arguments w_calls {M} _.

Definition St (M A : Type) : Type := world M -> result A * world M.

Definition ret {M A : Type} (a : A) : St M A := fun w => (Ok a, w).

Definition bind {M A B : Type} (c : St M A) (k : A -> St M B) : St M B :=
  fun w =>
    match c w with
    | (Ok a, w') => k a w'
    | (Raise e, w') => (Raise e, w')
    end.

Definition lift {M A : Type} (r : result A) : St M A := fun w => (r, w).

Definition log {M : Type} (e : event) : St M unit :=
  fun w => (Ok tt, {| w_record := w_record w;
                      w_machine := w_machine w;
                      w_calls := w_calls w ++ [e] |}).

Definition on_machine {M A : Type} (f : M -> result A * M) : St M A :=
  fun w =>
    let '(r, m) := f (w_machine w) in
    (r, {| w_record := w_record w; w_machine := m; w_calls := w_calls w |}).

Definition get_record {M : Type} : St M (list entry) :=
  fun w => (Ok (w_record w), w).

(** [self.record[i] = new_record] when [i < len(self.record)], else
    [self.record.append(new_record)]. *)
Definition store {M : Type} (i : nat) (new_record : entry) : St M unit :=
  fun w =>
    let record := w_record w in
    (Ok tt, {| w_record := if decide (i < length record)%nat
                           then <[i := new_record]> record
                           else record ++ [new_record];
               w_machine := w_machine w;
               w_calls := w_calls w |}).

Fixpoint for_each {M : Type} (l : list nat) (body : nat -> St M unit)
    : St M unit :=
  match l with
  | [] => ret tt
  | i :: l' => bind (body i) (fun _ => for_each l' body)
  end.

(** What the record holds for the current index. *)
Inductive recorded : Type :=
| Skip
| Stored (template : Template)
| Fresh.

Notation "'let*' x ':=' c 'in' k" := (bind c (fun x => k))
  (at level 10, x name, c at level 100, k at level 200, only parsing).

(** The first half of an iteration, once [strategy] is fetched: look the
    index up in the record.  A payload that the strategy rejects as
    [BadData] counts as absent; any other exception escapes. *)
Definition recorded_template {M : Type} (strategy : SearchStrategy.t)
    (i : nat) : St M recorded :=
  let* record := get_record in
  match record !! i with
  | Some TOMBSTONE => ret Skip
  | Some (Entry _ data) =>
      let* _ := log (EvFromBasic i data) in
      match SearchStrategy.from_basic strategy data with
      | Ok template => ret (Stored template)
      | Raise (BadData _) => ret Fresh
      | Raise e => lift (Raise e)
      end
  | None => ret Fresh
  end.

(** [if not template_set]: draw the parameter from the parameter seed and
    the template from this index's entry of the seed list. *)
Definition fresh_template {M : Type} (self : t)
    (strategy : SearchStrategy.t) (i : nat) : St M Template :=
  let* _ := log (EvDrawParameter i (parameter_seed self)) in
  let* parameter :=
    lift (SearchStrategy.draw_parameter strategy
            (Random (parameter_seed self))) in
  let* seed :=
    lift (match templates self !! i with
          | Some s => Ok s
          | None => Raise IndexError
          end) in
  let* _ := log (EvDrawTemplate i seed) in
  lift (SearchStrategy.draw_template strategy (Random seed) parameter).

(** The second half of an iteration: persist the serialized template,
    reify, report, execute. *)
Definition perform {M : Type} (sm : GenericStateMachine.t M)
    (print_steps : bool) (strategy : SearchStrategy.t)
    (template : Template) (i : nat) : St M unit :=
  let* data := lift (SearchStrategy.to_basic strategy template) in
  let* _ := store i (Entry (Some strategy) data) in
  let* value := lift (SearchStrategy.reify strategy template) in
  let* _ :=
    if print_steps
    then let* _ := log (EvPrintStep i value) in
         on_machine (GenericStateMachine.print_step sm value)
    else ret tt in
  let* _ := log (EvExecuteStep i value) in
  on_machine (GenericStateMachine.execute_step sm value).

(** One iteration of the loop of [run]. *)
Definition run_index {M : Type} (self : t) (sm : GenericStateMachine.t M)
    (print_steps : bool) (i : nat) : St M unit :=
  let* _ := log (EvSteps i) in
  let* strategy := on_machine (GenericStateMachine.steps sm) in
  let* found := recorded_template strategy i in
  match found with
  | Skip => ret tt
  | Stored template => perform sm print_steps strategy template i
  | Fresh =>
      let* template := fresh_template self strategy i in
      perform sm print_steps strategy template i
  end.

(** [run]: the loop under [try], then [teardown] under [finally].  An
    exception of [teardown] replaces the one of the loop.  [debug] is
    [current_verbosity() >= Verbosity.debug]. *)
Definition run {M : Type} (self : t) (sm : GenericStateMachine.t M)
    (state_machine : M) (print_steps : option bool) (debug : bool)
    : result unit * world M :=
  let print_steps := default debug print_steps in
  let w0 := {| w_record := record self;
               w_machine := state_machine;
               w_calls := [] |} in
  let '(r, w1) :=
    for_each (seq 0 (Z.to_nat (n_steps self)))
             (run_index self sm print_steps) w0 in
  let '(r', w2) :=
    bind (log EvTeardown)
         (fun _ => on_machine (GenericStateMachine.teardown sm)) w1 in
  (match r' with
   | Raise e => Raise e
   | Ok _ => r
   end, w2).

(** The runner as the replay leaves it: its record was updated in
    place. *)
Definition after_run {M : Type} (self : t) (w : world M) : t :=
  {| parameter_seed := parameter_seed self;
     template_seed := template_seed self;
     n_steps := n_steps self;
     templates := templates self;
     record := w_record w |}.

(** The operation values handed to [execute_step], in order. *)
Definition executed (calls : list event) : list Value :=
  omap (fun e => match e with
                 | EvExecuteStep _ value => Some value
                 | _ => None
                 end) calls.

(** The loop index an event belongs to; [teardown] belongs to none. *)
Definition event_index (e : event) : option nat :=
  match e with
  | EvSteps i | EvFromBasic i _ | EvDrawParameter i _ | EvDrawTemplate i _
  | EvPrintStep i _ | EvExecuteStep i _ => Some i
  | EvTeardown => None
  end.
End Runner.
Arguments w_record {_ _ M} _.
Arguments w_machine {_ _ M} _.
Arguments w_calls {_ _ M} _.
End StateMachineRunner.

(** ** The strategy adapter *)
Module StateMachineSearchStrategy.
Import StateMachineRunner.
Section Adapter.
Context `{PR : PyRandom, PO : PyObjects}.

(** The adapter object: [program_size] is the step count of the settings
    it was built with, or of [Settings.default] when given none. *)
Record t : Type := { program_size : Z }.

Definition __init__ (Settings_default : Settings) (settings : option Settings)
    : t :=
  {| program_size := stateful_step_count (default Settings_default settings) |}.

Definition reify (template : StateMachineRunner.t) : StateMachineRunner.t :=
  template.

Definition produce_parameter (random : rng) : Z * rng :=
  getrandbits 64 random.

Definition produce_template (self : t) (random : rng) (parameter_value : Z)
    : result StateMachineRunner.t * rng :=
  let parameter_seed := parameter_value in
  let '(template_seed, random') := getrandbits 64 random in
  (StateMachineRunner.__init__ parameter_seed template_seed
     (program_size self) None None, random').

(** *** The canonical 4-field form *)

Definition to_basic (template : StateMachineRunner.t) : basic :=
  BList [ BInt (parameter_seed template);
          BInt (template_seed template);
          BInt (n_steps template);
          BList (map (fun data =>
                        match data with
                        | Entry _ payload => BList [payload]
                        | TOMBSTONE => BNone
                        end) (record template)) ].

(** The loop over [data[3]]. *)
Fixpoint from_basic_record (items : list basic) (record : list entry)
    : result (list entry) :=
  match items with
  | [] => Ok record
  | record_data :: rest =>
      match record_data with
      | BNone => from_basic_record rest (record ++ [TOMBSTONE])
      | _ =>
          _ ← check_data_type list_type record_data;
          _ ← check_length 1 record_data;
          payload ← getitem record_data 0;
          from_basic_record rest (record ++ [Entry None payload])
      end
  end.

Definition from_basic (Settings_default : Settings) (data : basic)
    : result StateMachineRunner.t :=
  _ ← check_data_type list_type data;
  _ ← check_length 4 data;
  data0 ← getitem data 0;
  _ ← check_data_type integer_types data0;
  data1 ← getitem data 1;
  _ ← check_data_type integer_types data1;
  data2 ← getitem data 2;
  _ ← check_data_type integer_types data2;
  data3 ← getitem data 3;
  _ ← check_data_type list_type data3;
  if int_value data2 <? 0 then
    Raise (BadData ("Invalid negative number of steps: "
                    +:+ pretty (int_value data2)))
  else if stateful_step_count Settings_default * 1000 <? int_value data2 then
    Raise (BadData ("Implausibly large number of steps: "
                    +:+ pretty (int_value data2)))
  else
    record ← from_basic_record
               (match data3 with BList items => items | _ => [] end) [];
    StateMachineRunner.__init__ (int_value data0) (int_value data1)
      (int_value data2) (Some record) None.

(** *** Shrink moves *)

(** A copy of [template] with another step count and record; the
    constructor runs again. *)
Definition derive (template : StateMachineRunner.t) (n_steps : Z)
    (record : list entry) : result StateMachineRunner.t :=
  StateMachineRunner.__init__ (parameter_seed template)
    (template_seed template) n_steps (Some record)
    (Some (templates template)).

(** [for i in hrange(k): new_record[i] = TOMBSTONE]. *)
Definition bury_prefix (k : Z) (new_record : list entry) : list entry :=
  foldl (fun acc i => <[i := TOMBSTONE]> acc) new_record
        (seq 0 (Z.to_nat k)).

(** The [while True] loop of [cut_steps], entered with the current
    [mid]. *)
Equations? cut_steps_loop (template : StateMachineRunner.t) (mid : Z)
    : gen StateMachineRunner.t
    by wf (Z.to_nat (Z.abs (n_steps template - mid))) lt :=
  cut_steps_loop template mid
    with decide ((n_steps template + mid) `div` 2 = mid) => {
    | left _ => gen_done
    | right _ =>
        let next_mid := (n_steps template + mid) `div` 2 in
        gen_yield (derive template next_mid (record template))
          (gen_yield
             (derive template (n_steps template)
                (bury_prefix
                   (Z.min next_mid (Z.of_nat (length (record template))))
                   (record template)))
             (cut_steps_loop template next_mid)) }.
Proof.
  pose proof (Z.div_mod (n_steps template + mid) 2 ltac:(lia)).
  pose proof (Z.mod_pos_bound (n_steps template + mid) 2 ltac:(lia)).
  lia.
Qed.

Definition cut_steps (random : rng) (template : StateMachineRunner.t)
    : gen StateMachineRunner.t :=
  let rest := cut_steps_loop template 0 in
  if Z.of_nat (length (record template)) <? n_steps template then
    gen_yield (derive template (Z.of_nat (length (record template)))
                 (record template)) rest
  else rest.

(** The loop over [i] inside [random_discards]: each live entry is
    tombstoned when [random.randint(0, 9) <= k]. *)
Fixpoint discard_pass (k : Z) (indices : list nat) (new_record : list entry)
    (random : rng) : result (list entry) * rng :=
  match indices with
  | [] => (Ok new_record, random)
  | i :: indices' =>
      match new_record !! i with
      | None => (Raise IndexError, random)
      | Some TOMBSTONE => discard_pass k indices' new_record random
      | Some (Entry _ _) =>
          let '(x, random') := randint 0 9 random in
          if x <=? k
          then discard_pass k indices' (<[i := TOMBSTONE]> new_record) random'
          else discard_pass k indices' new_record random'
      end
  end.

(** The two nested loops of [random_discards], as one loop over the
    values [k] takes: ten times each of 1, ..., 7. *)
Fixpoint random_discards_loop (template : StateMachineRunner.t)
    (ks : list Z) (random : rng) : gen StateMachineRunner.t :=
  match ks with
  | [] => gen_done
  | k :: ks' =>
      let '(new_record, random') :=
        discard_pass k (seq 0 (length (record template)))
                     (record template) random in
      gen_yield (new_record ← new_record;
                 derive template (n_steps template) new_record)
                (random_discards_loop template ks' random')
  end.

Definition random_discards (random : rng) (template : StateMachineRunner.t)
    : gen StateMachineRunner.t :=
  let live :=
    length (filter (fun r => is_tombstone r = false) (record template)) in
  if Z.of_nat live <? 10 then gen_done
  else
    random_discards_loop template
      (k ← seqZ 1 7; _ ← seq 0 10; [k]) random.

(** The loop of [delete_elements] over the shuffled indices. *)
Fixpoint delete_elements_loop (template : StateMachineRunner.t)
    (indices : list nat) (deletes : Z) : gen StateMachineRunner.t :=
  match indices with
  | [] => gen_done
  | i :: indices' =>
      if 10 <=? deletes then gen_done
      else
        match record template !! i with
        | None => ([], Some IndexError)
        | Some TOMBSTONE => delete_elements_loop template indices' deletes
        | Some (Entry _ _) =>
            gen_yield
              (derive template (n_steps template)
                 (<[i := TOMBSTONE]> (record template)))
              (delete_elements_loop template indices' (deletes + 1))
        end
  end.

Definition delete_elements (random : rng) (template : StateMachineRunner.t)
    : gen StateMachineRunner.t :=
  let '(indices, _) := shuffle (seq 0 (length (record template))) random in
  delete_elements_loop template indices 0.

(** The loop of [accept] over what the inner move yields; [err] is the
    exception that ended the inner move. *)
Fixpoint accept_loop (strategy : SearchStrategy.t) (i : nat)
    (template : StateMachineRunner.t) (ts : list Template)
    (err : option exn) : gen StateMachineRunner.t :=
  match ts with
  | [] => ([], err)
  | t :: ts' =>
      gen_yield
        (data ← SearchStrategy.to_basic strategy t;
         derive template (n_steps template)
           (<[i := Entry (Some strategy) data]> (record template)))
        (accept_loop strategy i template ts' err)
  end.

Definition convert_simplifier (strategy : SearchStrategy.t)
    (simplifier : SearchStrategy.simplifier Template) (i : nat)
    : SearchStrategy.simplifier StateMachineRunner.t :=
  fun random template =>
    match record template !! i with
    | None => gen_done
    | Some TOMBSTONE => gen_done
    | Some (Entry _ data) =>
        match SearchStrategy.from_basic strategy data with
        | Raise (BadData _) => gen_done
        | Raise e => ([], Some e)
        | Ok reconstituted =>
            let '(ts, err) := simplifier random reconstituted in
            accept_loop strategy i template ts err
        end
    end.

(** The loop of [simplifiers] over the record indices. *)
Fixpoint simplifiers_loop (template : StateMachineRunner.t)
    (indices : list nat) (random : rng)
    : gen (SearchStrategy.simplifier StateMachineRunner.t) :=
  match indices with
  | [] => gen_done
  | i :: indices' =>
      match record template !! i with
      | None => ([], Some IndexError)
      | Some TOMBSTONE => simplifiers_loop template indices' random
      | Some (Entry None _) => simplifiers_loop template indices' random
      | Some (Entry (Some strategy) data) =>
          match SearchStrategy.from_basic strategy data with
          | Raise e => ([], Some e)
          | Ok child_template =>
              let '((inner, err), random') :=
                SearchStrategy.simplifiers strategy random child_template in
              let wrapped :=
                map (fun simplifier =>
                       convert_simplifier strategy simplifier i) inner in
              match err with
              | Some e => (wrapped, Some e)
              | None =>
                  let rest := simplifiers_loop template indices' random' in
                  (wrapped ++ fst rest, snd rest)
              end
          end
      end
  end.

Definition simplifiers (random : rng) (template : StateMachineRunner.t)
    : gen (SearchStrategy.simplifier StateMachineRunner.t) :=
  let rest :=
    simplifiers_loop template (seq 0 (length (record template))) random in
  (cut_steps :: random_discards :: delete_elements :: fst rest, snd rest).
End Adapter.
End StateMachineSearchStrategy.

(** ** The declarative rule builder *)
Module RuleBasedStateMachine.
Section Builder.
Context `{PR : PyRandom, PO : PyObjects}.
(** The attributes a concrete machine class adds to its instances. *)
Context {U : Type}.

(** A handle on a previously produced value. *)
Inductive var_reference : Type := VarReference (name : string).

(** A declared argument of a rule, after [define_rule]: a bundle to read
    from, or a strategy to draw from. *)
Inductive argument : Type :=
| Bundle (name : string)
| Strategy (s : SearchStrategy.t).

(** [function] is called as [rule.function(self, **data)]; it may change
    the instance's own attributes and may raise. *)
Record Rule : Type := {
  targets : list string;
  function : U -> list (string * Value) -> result Value * U;
  arguments : list (string * argument)
}.

(** The strategies [steps] assembles, kept as terms over the external
    combinators. *)
Inductive strategy_expr : Type :=
| JustStrategy (rule : Rule)
| SimpleSampledFromStrategy (elements : list var_reference)
| LiteralStrategy (s : SearchStrategy.t)
| FixedKeysDictStrategy (d : list (string * strategy_expr))
| TupleStrategy (parts : list strategy_expr)
| one_of_strategies (alts : list strategy_expr).

(** An argument value inside a drawn step. *)
Inductive arg : Type :=
| Ref (v : var_reference)
| Lit (v : Value).

(** A machine class: its name and the rules registered for it (the rule
    set is computed once per class and cached). *)
Record class : Type := {
  __name__ : string;
  rules : list Rule
}.

Record t : Type := {
  bundles : gmap string (list var_reference);
  name_counter : Z;
  names_to_values : gmap string Value;
  user : U
}.

(** Modelled from the spec: [show] of [hypothesis.utils.show], used by
    [__repr__]. *)
Context (show : gmap string (list var_reference) -> string).

Definition __init__ (cls : class) (attributes : U) : result t :=
  match rules cls with
  | [] => Raise (InvalidDefinition
                   ("Type " +:+ __name__ cls +:+ " defines no rules"))
  | _ :: _ => Ok {| bundles := ∅;
                    name_counter := 1;
                    names_to_values := ∅;
                    user := attributes |}
  end.

Definition __repr__ (cls : class) (self : t) : string :=
  __name__ cls +:+ "(" +:+ show (bundles self) +:+ ")".

Definition upcoming_name (self : t) : string :=
  "v" +:+ pretty (name_counter self).

Definition new_name (self : t) : string * t :=
  (upcoming_name self,
   {| bundles := bundles self;
      name_counter := name_counter self + 1;
      names_to_values := names_to_values self;
      user := user self |}).

Definition set_bundles (self : t) (b : gmap string (list var_reference))
    : t :=
  {| bundles := b;
     name_counter := name_counter self;
     names_to_values := names_to_values self;
     user := user self |}.

(** [self.bundles.setdefault(name, [])]. *)
Definition bundle (name : string) (self : t) : list var_reference * t :=
  match bundles self !! name with
  | Some l => (l, self)
  | None => ([], set_bundles self (<[name := []]> (bundles self)))
  end.

(** What a bundle currently holds (nothing, when it was never touched). *)
Definition holds (name : string) (self : t) : list var_reference :=
  default [] (bundles self !! name).

(** The loop of [steps] over the arguments of one rule; [None] is
    [valid = False] and leaves the loop at once. *)
Fixpoint convert_arguments (args : list (string * argument)) (self : t)
    (converted_arguments : list (string * strategy_expr))
    : option (list (string * strategy_expr)) * t :=
  match args with
  | [] => (Some converted_arguments, self)
  | (k, Bundle name) :: args' =>
      let '(b, self') := bundle name self in
      match b with
      | [] => (None, self')
      | _ :: _ =>
          convert_arguments args' self'
            (converted_arguments ++ [(k, SimpleSampledFromStrategy b)])
      end
  | (k, Strategy s) :: args' =>
      convert_arguments args' self
        (converted_arguments ++ [(k, LiteralStrategy s)])
  end.

(** The loop of [steps] over the rules. *)
Fixpoint steps_loop (rs : list Rule) (self : t)
    (strategies : list strategy_expr) : list strategy_expr * t :=
  match rs with
  | [] => (strategies, self)
  | rule :: rs' =>
      let '(converted, self') := convert_arguments (arguments rule) self [] in
      match converted with
      | Some converted_arguments =>
          steps_loop rs' self'
            (strategies ++
               [TupleStrategy [JustStrategy rule;
                               FixedKeysDictStrategy converted_arguments]])
      | None => steps_loop rs' self' strategies
      end
  end.

Definition steps (cls : class) (self : t) : result strategy_expr * t :=
  let '(strategies, self') := steps_loop (rules cls) self [] in
  match strategies with
  | [] => (Raise (InvalidDefinition
                    ("No progress can be made from state "
                     +:+ __repr__ cls self')), self')
  | _ :: _ => (Ok (one_of_strategies strategies), self')
  end.

(** The first loop of [execute_step]: every [VarReference] is replaced by
    [self.names_to_values[v.name]]. *)
Fixpoint resolve (data : list (string * arg)) (self : t)
    : result (list (string * Value)) :=
  match data with
  | [] => Ok []
  | (k, Ref (VarReference name)) :: data' =>
      match names_to_values self !! name with
      | Some v => rest ← resolve data' self; Ok ((k, v) :: rest)
      | None => Raise (KeyError name)
      end
  | (k, Lit v) :: data' => rest ← resolve data' self; Ok ((k, v) :: rest)
  end.

(** The last loop of [execute_step]:
    [self.bundle(target).append(VarReference(name))]. *)
Fixpoint append_targets (ts : list string) (name : string) (self : t) : t :=
  match ts with
  | [] => self
  | target :: ts' =>
      let '(b, self') := bundle target self in
      append_targets ts' name
        (set_bundles self'
           (<[target := b ++ [VarReference name]]> (bundles self')))
  end.

Definition execute_step (step : Rule * list (string * arg)) (self : t)
    : result unit * t :=
  let '(rule, data) := step in
  match resolve data self with
  | Raise e => (Raise e, self)
  | Ok data =>
      let '(result, attributes) := function rule (user self) data in
      let self :=
        {| bundles := bundles self;
           name_counter := name_counter self;
           names_to_values := names_to_values self;
           user := attributes |} in
      match result with
      | Raise e => (Raise e, self)
      | Ok result =>
          match targets rule with
          | [] => (Ok tt, self)
          | _ :: _ =>
              let '(name, self) := new_name self in
              let self :=
                {| bundles := bundles self;
                   name_counter := name_counter self;
                   names_to_values := <[name := result]> (names_to_values self);
                   user := user self |} in
              (Ok tt, append_targets (targets rule) name self)
          end
      end
  end.

(** Every handle issued so far is numbered below the counter. *)
Definition handles_below_counter (self : t) : Prop :=
  forall name, is_Some (names_to_values self !! name) ->
    exists k, k < name_counter self /\ name = "v" +:+ pretty k.

(** A rule one of whose bundle arguments names a bundle holding nothing. *)
Definition unsatisfied (rule : Rule) (self : t) : Prop :=
  exists k name, In (k, Bundle name) (arguments rule) /\ holds name self = [].
End Builder.
End RuleBasedStateMachine.


(** ** Predicates used in the statements *)

(** What deserialization makes of an entry: its strategy is forgotten. *)
Definition forget `{PyRandom, PyObjects} (e : entry) : entry :=
  match e with
  | TOMBSTONE => TOMBSTONE
  | Entry _ payload => Entry None payload
  end.

(** Malformed canonical data: not a list of exactly four fields, or a seed
    or step-count field that is no integer, or a step count that is
    negative or above 1000 times the default. *)
Definition malformed (Settings_default : Settings) (data : basic) : Prop :=
  match data with
  | BList [data0; data1; data2; data3] =>
      isinstance data0 integer_types = false \/
      isinstance data1 integer_types = false \/
      isinstance data2 integer_types = false \/
      int_value data2 < 0 \/
      stateful_step_count Settings_default * 1000 < int_value data2
  | _ => True
  end.

(** ** A concrete universe, for examples *)

(** A linear congruential generator stands in for the Mersenne Twister. *)
Definition lcg (state : Z) : Z :=
  (state * 6364136223846793005 + 1442695040888963407) mod 2 ^ 64.

#[global] Instance sample_random : PyRandom := {|
  rng := Z;
  Random seed := seed;
  getrandbits k state := (lcg state mod 2 ^ k, lcg state);
  randint a b state := (a + lcg state mod (b - a + 1), lcg state);
  shuffle l state := (rev l, lcg state)
|}.

#[global] Instance sample_objects : PyObjects := {|
  Value := Z;
  Template := Z;
  Param := unit
|}.

(** A strategy for small integers: a template is the integer itself, its
    payload the integer as basic data, its one shrink move halving. *)
Definition halve : SearchStrategy.simplifier Z :=
  fun _ t => (if t =? 0 then [] else [t `div` 2], None).

Definition integers : SearchStrategy.t := {|
  SearchStrategy.draw_parameter _ := Ok tt;
  SearchStrategy.draw_template random _ := Ok (fst (getrandbits 8 random));
  SearchStrategy.reify t := Ok t;
  SearchStrategy.to_basic t := Ok (BInt t);
  SearchStrategy.from_basic data :=
    match data with
    | BInt n => Ok n
    | _ => Raise (BadData "not an integer")
    end;
  SearchStrategy.simplifiers random _ := (([halve], None), random)
|}.

(** A machine that adds up the integers it is given and fails once the sum
    passes 300. *)
Definition adder : GenericStateMachine.t Z := {|
  GenericStateMachine.steps total := (Ok integers, total);
  GenericStateMachine.execute_step value total :=
    if 300 <? total + value
    then (Raise (Exception "sum too large"), total)
    else (Ok tt, total + value);
  GenericStateMachine.print_step _ total := (Ok tt, total);
  GenericStateMachine.teardown total := (Ok tt, total)
|}.

(** A machine that counts how often its strategy is fetched, and one that
    has no step to offer. *)
Definition ticker : GenericStateMachine.t Z := {|
  GenericStateMachine.steps fetched := (Ok integers, fetched + 1);
  GenericStateMachine.execute_step _ fetched := (Ok tt, fetched);
  GenericStateMachine.print_step _ fetched := (Ok tt, fetched);
  GenericStateMachine.teardown fetched := (Ok tt, fetched)
|}.

Definition stuck : GenericStateMachine.t Z := {|
  GenericStateMachine.steps m :=
    (Raise (InvalidDefinition "No progress can be made from state Stuck({})"),
     m);
  GenericStateMachine.execute_step _ m := (Ok tt, m);
  GenericStateMachine.print_step _ m := (Ok tt, m);
  GenericStateMachine.teardown m := (Ok tt, m)
|}.

(** A record of four steps: one stored, one tombstoned, two to draw. *)
Definition sample_runner : StateMachineRunner.t := {|
  StateMachineRunner.parameter_seed := 3;
  StateMachineRunner.template_seed := 4;
  StateMachineRunner.n_steps := 4;
  StateMachineRunner.templates := [10; 20; 30; 40];
  StateMachineRunner.record := [Entry (Some integers) (BInt 8); TOMBSTONE]
|}.

(** The stack machine of the end-to-end property: [push] fills bundle [b],
    [pop] reads from it; [push_twice] lists [b] twice among its targets. *)
Definition push : RuleBasedStateMachine.Rule (U:=unit) := {|
  RuleBasedStateMachine.targets := ["b"%string];
  RuleBasedStateMachine.function u _ := (Ok (-1), u);
  RuleBasedStateMachine.arguments := []
|}.

Definition pop : RuleBasedStateMachine.Rule (U:=unit) := {|
  RuleBasedStateMachine.targets := [];
  RuleBasedStateMachine.function u kwargs :=
    match kwargs with
    | [(_, x)] => (if x <? 0 then Raise (Exception "negative") else Ok x, u)
    | _ => (Raise (Exception "TypeError"), u)
    end;
  RuleBasedStateMachine.arguments :=
    [("x"%string, RuleBasedStateMachine.Bundle "b")]
|}.

Definition push_twice : RuleBasedStateMachine.Rule (U:=unit) := {|
  RuleBasedStateMachine.targets := ["b"%string; "b"%string];
  RuleBasedStateMachine.function u _ := (Ok (-1), u);
  RuleBasedStateMachine.arguments := []
|}.

Definition stack_machine : RuleBasedStateMachine.class (U:=unit) := {|
  RuleBasedStateMachine.__name__ := "Stack";
  RuleBasedStateMachine.rules := [push; pop]
|}.

(** An instance as the constructor makes it. *)
Definition fresh_instance : RuleBasedStateMachine.t (U:=unit) := {|
  RuleBasedStateMachine.bundles := ∅;
  RuleBasedStateMachine.name_counter := 1;
  RuleBasedStateMachine.names_to_values := ∅;
  RuleBasedStateMachine.user := tt
|}.

Definition sample_show
    (b : gmap string (list RuleBasedStateMachine.var_reference)) : string :=
  "{...}".

(** ** More predicates used in the statements *)

(** What the loop of [from_basic] makes of one element of the step list:
    [None] is a tombstone, a one-element list wraps a payload, anything
    else is bad data. *)
Definition entry_of_item `{PyRandom, PyObjects} (item : basic) : option entry :=
  match item with
  | BNone => Some TOMBSTONE
  | BList [payload] => Some (Entry None payload)
  | _ => None
  end.

(** Canonical data that deserialization accepts. *)
Definition well_formed `{PyRandom, PyObjects} (Settings_default : Settings)
    (data : basic) : Prop :=
  match data with
  | BList [data0; data1; data2; BList items] =>
      isinstance data0 integer_types = true /\
      isinstance data1 integer_types = true /\
      isinstance data2 integer_types = true /\
      0 <= int_value data2 <= stateful_step_count Settings_default * 1000 /\
      int_value data2 <= 1000000 /\
      Forall (fun item => is_Some (entry_of_item item)) items
  | _ => False
  end.

(** A runner whose seed list is what [seeds] draws from its template seed,
    possibly beyond its step count: what [produce_template] and
    [from_basic] build, and what shrink moves hand on. *)
Definition seeded `{PyRandom, PyObjects} (self : StateMachineRunner.t) : Prop :=
  exists m : Z,
    StateMachineRunner.n_steps self <= m /\
    StateMachineRunner.templates self
    = seeds (StateMachineRunner.template_seed self) m.

(** The number of live entries, as [__repr__] and [random_discards] count
    them. *)
Definition live `{PyRandom, PyObjects} (record : list entry) : nat :=
  length (filter (fun r => is_tombstone r = false) record).

(** The seeds a shrink move must hand on unchanged. *)
Definition same_seeds `{PyRandom, PyObjects}
    (template c : StateMachineRunner.t) : Prop :=
  StateMachineRunner.parameter_seed c
  = StateMachineRunner.parameter_seed template /\
  StateMachineRunner.template_seed c
  = StateMachineRunner.template_seed template /\
  StateMachineRunner.templates c = StateMachineRunner.templates template.

(** Every call of [execute_step] in a log comes right after the call of
    [print_step] for the same index and value; [previous] is the call
    before the log. *)
Fixpoint announced `{PyRandom, PyObjects}
    (previous : option StateMachineRunner.event)
    (calls : list StateMachineRunner.event) : Prop :=
  match calls with
  | [] => True
  | e :: rest =>
      match e with
      | StateMachineRunner.EvExecuteStep i value =>
          previous = Some (StateMachineRunner.EvPrintStep i value)
      | _ => True
      end /\ announced (Some e) rest
  end.

(** Whether a record holds a tombstone at an index. *)
Definition skipped `{PyRandom, PyObjects} (record : list entry) (i : nat)
    : bool :=
  match record !! i with
  | Some TOMBSTONE => true
  | _ => false
  end.

(** * Theorems *)

Section AdapterFacts.
Context `{PR : PyRandom, PO : PyObjects}.
Import StateMachineRunner StateMachineSearchStrategy.

Lemma list_fmap_map {A B : Type} (f : A -> B) (l : list A) :
  f <$> l = map f l.
Proof. reflexivity. Qed.

Lemma seeds_loop_length (n : nat) (random : rng) :
  length (seeds_loop n random) = n.
Proof.
  revert random; induction n as [|n IH]; intros random; simpl; [done|].
  destruct (getrandbits 64 random) as [x random']; simpl.
  by rewrite IH.
Qed.

Lemma seeds_length (starting n_steps : Z) :
  length (seeds starting n_steps) = Z.to_nat n_steps.
Proof. apply seeds_loop_length. Qed.

(** The constructor succeeds exactly as its assertions allow. *)
Lemma init_fresh (parameter_seed template_seed n_steps : Z)
    (record : option (list entry)) :
  0 <= n_steps <= 1000000 ->
  StateMachineRunner.__init__ parameter_seed template_seed n_steps record None
  = Ok {| StateMachineRunner.parameter_seed := parameter_seed;
          StateMachineRunner.template_seed := template_seed;
          StateMachineRunner.n_steps := n_steps;
          templates := seeds template_seed n_steps;
          StateMachineRunner.record := default [] record |}.
Proof.
  intros Hn. unfold StateMachineRunner.__init__.
  replace ((0 <=? n_steps) && (n_steps <=? 1000000)) with true
    by (symmetry; apply andb_true_intro; split; lia).
  simpl. rewrite seeds_length.
  replace (n_steps <=? Z.of_nat (Z.to_nat n_steps)) with true
    by (symmetry; apply Z.leb_le; lia).
  done.
Qed.

Lemma init_invariant (parameter_seed template_seed n_steps : Z)
    (record : option (list entry)) (templates : option (list Z))
    (self : StateMachineRunner.t) :
  StateMachineRunner.__init__ parameter_seed template_seed n_steps record
    templates = Ok self ->
  invariant self /\
  StateMachineRunner.parameter_seed self = parameter_seed /\
  StateMachineRunner.template_seed self = template_seed /\
  StateMachineRunner.n_steps self = n_steps /\
  StateMachineRunner.record self = default [] record.
Proof.
  unfold StateMachineRunner.__init__, invariant.
  destruct ((0 <=? n_steps) && (n_steps <=? 1000000)) eqn:Hrange;
    simpl; [|done].
  apply andb_prop in Hrange as [Hlo Hhi].
  match goal with |- context [negb (n_steps <=? ?len)] =>
    destruct (n_steps <=? len) eqn:Hlen end; simpl; [|done].
  intros [= <-]; simpl. repeat split; lia.
Qed.

(** A copy made by a shrink move keeps the seed list, as long as the
    original satisfied the constructor's assertions. *)
Lemma derive_ok (template self : StateMachineRunner.t) (n : Z)
    (record : list entry) :
  derive template n record = Ok self ->
  StateMachineRunner.parameter_seed self
    = StateMachineRunner.parameter_seed template /\
  StateMachineRunner.template_seed self
    = StateMachineRunner.template_seed template /\
  StateMachineRunner.n_steps self = n /\
  StateMachineRunner.record self = record /\
  0 <= n <= 1000000 /\
  (invariant template -> n <= StateMachineRunner.n_steps template ->
   templates self = templates template).
Proof.
  unfold derive. intros Hinit.
  pose proof (init_invariant _ _ _ _ _ _ Hinit) as (Hinv & Hp & Ht & Hn & Hr).
  destruct Hinv as [Hrange _]. rewrite Hn in Hrange.
  repeat split; try done; try lia.
  intros [_ Hlen] Hle. revert Hinit. unfold StateMachineRunner.__init__.
  destruct (negb _); [done|].
  destruct (templates template) as [|s l] eqn:Htpl.
  - destruct (negb _); [done|]. intros [= <-]; simpl.
    simpl in Hlen. unfold seeds.
    replace (Z.to_nat n) with O by lia. done.
  - destruct (negb _); [done|]. by intros [= <-].
Qed.

Lemma from_basic_record_to_basic (record acc : list entry) :
  from_basic_record
    (map (fun data => match data with
                      | Entry _ payload => BList [payload]
                      | TOMBSTONE => BNone
                      end) record) acc
  = Ok (acc ++ map forget record).
Proof.
  revert acc; induction record as [|e record IH]; intros acc; simpl.
  - by rewrite app_nil_r.
  - destruct e as [|s payload]; simpl; rewrite IH, <- app_assoc; done.
Qed.

(** C1, within the plausibility bound. For every run record that satisfies
    the constructor's assertions and whose step count does not exceed 1000
    times the default step count, serializing to the canonical 4-field form
    and deserializing it back succeeds and gives a record with the same
    parameter seed, template seed and step count; tombstones become [None]
    and come back as tombstones, and every other entry comes back with the
    same payload (its strategy is forgotten). *)
Theorem from_basic_to_basic (Settings_default : Settings)
    (template : StateMachineRunner.t) :
  invariant template ->
  n_steps template <= stateful_step_count Settings_default * 1000 ->
  exists (items : list basic) (template' : StateMachineRunner.t),
    to_basic template
    = BList [BInt (parameter_seed template); BInt (template_seed template);
             BInt (n_steps template); BList items] /\
    from_basic Settings_default (to_basic template) = Ok template' /\
    parameter_seed template' = parameter_seed template /\
    template_seed template' = template_seed template /\
    n_steps template' = n_steps template /\
    forall i : nat,
      match record template !! i with
      | Some TOMBSTONE =>
          items !! i = Some BNone /\ record template' !! i = Some TOMBSTONE
      | Some (Entry _ payload) =>
          items !! i = Some (BList [payload]) /\
          record template' !! i = Some (Entry None payload)
      | None => items !! i = None /\ record template' !! i = None
      end.
Proof.
  intros [Hrange Hlen] Hplausible.
  eexists _, _. split; [reflexivity|].
  unfold from_basic, to_basic; simpl.
  replace (n_steps template <? 0) with false by (symmetry; apply Z.ltb_ge; lia).
  replace (stateful_step_count Settings_default * 1000 <? n_steps template)
    with false by (symmetry; apply Z.ltb_ge; lia).
  rewrite from_basic_record_to_basic; simpl.
  rewrite init_fresh by done; simpl.
  split; [reflexivity|]. repeat split.
  intros i. simpl. rewrite <- !list_fmap_map, !list_lookup_fmap.
  destruct (record template !! i) as [[|s payload]|]; done.
Qed.

(** C5.  Deserialization rejects malformed canonical data as bad data:
    anything that is not a list of exactly four fields, a seed or step-count
    field that is no integer, a negative step count, a step count above
    1000 times the default; so do [[0, 0, -1, []]] and [[0, 0, 10^12, []]]
    against the default of 50. *)
Theorem from_basic_rejects_malformed (Settings_default : Settings)
    (data : basic) :
  (malformed Settings_default data ->
   exists msg, from_basic Settings_default data = Raise (BadData msg)) /\
  from_basic Settings_initial (BList [BInt 0; BInt 0; BInt (-1); BList []])
  = Raise (BadData "Invalid negative number of steps: -1") /\
  from_basic Settings_initial
    (BList [BInt 0; BInt 0; BInt (10 ^ 12); BList []])
  = Raise (BadData "Implausibly large number of steps: 1000000000000").
Proof.
  split; [|split; reflexivity].
  intros Hbad. unfold from_basic.
  destruct data as [| b | n | s | l]; try (eexists; reflexivity).
  destruct l as [|data0 [|data1 [|data2 [|data3 [|data4 l]]]]];
    try (eexists; reflexivity).
  unfold check_data_type.
  cbn -[isinstance int_value Z.ltb Z.mul] in Hbad |- *.
  destruct (isinstance data0 integer_types);
    cbn -[isinstance int_value Z.ltb Z.mul]; [|eexists; reflexivity].
  destruct (isinstance data1 integer_types);
    cbn -[isinstance int_value Z.ltb Z.mul]; [|eexists; reflexivity].
  destruct (isinstance data2 integer_types);
    cbn -[isinstance int_value Z.ltb Z.mul]; [|eexists; reflexivity].
  destruct (isinstance data3 list_type);
    cbn -[isinstance int_value Z.ltb Z.mul]; [|eexists; reflexivity].
  destruct (int_value data2 <? 0) eqn:Hneg; [eexists; reflexivity|].
  destruct (stateful_step_count Settings_default * 1000 <? int_value data2)
    eqn:Hbig; [eexists; reflexivity|].
  apply Z.ltb_ge in Hneg, Hbig.
  destruct Hbad as [?|[?|[?|[?|?]]]]; try done; lia.
Qed.

End AdapterFacts.

(** The roundtrip of C1 fails beyond the plausibility bound: an adapter
    configured for 50001 steps produces a record that satisfies the
    constructor's assertions, and whose canonical form is rejected against
    the default of 50. *)
Lemma from_basic_to_basic_implausible :
  exists (template : StateMachineRunner.t) (random : rng),
    StateMachineSearchStrategy.produce_template
      (StateMachineSearchStrategy.__init__ Settings_initial
         (Some {| stateful_step_count := 50001 |}))
      (Random 0) 0 = (Ok template, random) /\
    StateMachineRunner.invariant template /\
    StateMachineSearchStrategy.from_basic Settings_initial
      (StateMachineSearchStrategy.to_basic template)
    = Raise (BadData "Implausibly large number of steps: 50001").
Proof.
  exists {| StateMachineRunner.parameter_seed := 0;
            StateMachineRunner.template_seed := fst (getrandbits 64 (Random 0));
            StateMachineRunner.n_steps := 50001;
            StateMachineRunner.templates :=
              seeds (fst (getrandbits 64 (Random 0))) 50001;
            StateMachineRunner.record := [] |}.
  exists (snd (getrandbits 64 (Random 0))).
  split; [|split].
  - unfold StateMachineSearchStrategy.produce_template,
      StateMachineSearchStrategy.__init__.
    cbn [default option_rect from_option stateful_step_count
         StateMachineSearchStrategy.program_size].
    change (stateful_step_count (id {| stateful_step_count := 50001 |}))
      with 50001.
    destruct (getrandbits 64 (Random 0)) as [template_seed random].
    rewrite init_fresh by lia. reflexivity.
  - unfold StateMachineRunner.invariant.
    cbn [StateMachineRunner.n_steps StateMachineRunner.templates].
    rewrite seeds_length. lia.
  - reflexivity.
Qed.

Lemma from_basic_to_basic_witness :
  let template : StateMachineRunner.t :=
    {| StateMachineRunner.parameter_seed := 7;
       StateMachineRunner.template_seed := 9;
       StateMachineRunner.n_steps := 2;
       StateMachineRunner.templates := [11; 13];
       StateMachineRunner.record := [TOMBSTONE; Entry None (BInt 5)] |} in
  exists (items : list basic) (template' : StateMachineRunner.t),
    StateMachineSearchStrategy.to_basic template
    = BList [BInt 7; BInt 9; BInt 2; BList items] /\
    StateMachineSearchStrategy.from_basic Settings_initial
      (StateMachineSearchStrategy.to_basic template) = Ok template' /\
    StateMachineRunner.parameter_seed template' = 7 /\
    StateMachineRunner.template_seed template' = 9 /\
    StateMachineRunner.n_steps template' = 2 /\
    forall i : nat,
      match StateMachineRunner.record template !! i with
      | Some TOMBSTONE =>
          items !! i = Some BNone /\
          StateMachineRunner.record template' !! i = Some TOMBSTONE
      | Some (Entry _ payload) =>
          items !! i = Some (BList [payload]) /\
          StateMachineRunner.record template' !! i
          = Some (Entry None payload)
      | None =>
          items !! i = None /\ StateMachineRunner.record template' !! i = None
      end.
Proof.
  intros template.
  apply (from_basic_to_basic Settings_initial template).
  - unfold StateMachineRunner.invariant; simpl; lia.
  - simpl; lia.
Defined.

Lemma from_basic_rejects_malformed_witness :
  malformed Settings_initial (BList [BInt 0; BBool true; BText "3"; BList []])
  /\ exists msg,
       StateMachineSearchStrategy.from_basic Settings_initial
         (BList [BInt 0; BBool true; BText "3"; BList []])
       = Raise (BadData msg).
Proof.
  split.
  - simpl. right; right; left; reflexivity.
  - apply (proj1 (from_basic_rejects_malformed Settings_initial
                    (BList [BInt 0; BBool true; BText "3"; BList []]))).
    simpl. right; right; left; reflexivity.
Defined.

Section ShrinkFacts.
Context `{PR : PyRandom, PO : PyObjects}.
Import StateMachineRunner StateMachineSearchStrategy.

(** What a generator yielded after [yield r] was either [r] itself or
    something yielded later. *)
Lemma gen_yield_In {A : Type} (r : result A) (rest : gen A) (c : A) :
  In c (fst (gen_yield r rest)) -> r = Ok c \/ In c (fst rest).
Proof.
  destruct r as [a|e]; simpl; [|done].
  intros [->|Hin]; [by left|by right].
Qed.

(** [tombstones_kept record record']: every tombstone of [record] is one of
    [record'] too. *)
Lemma insert_tombstone_kept (record : list entry) (j i : nat) :
  record !! i = Some TOMBSTONE ->
  <[j := TOMBSTONE]> record !! i = Some TOMBSTONE.
Proof.
  intros Hi. destruct (decide (j = i)) as [->|Hne].
  - apply list_lookup_insert_eq. by eapply lookup_lt_Some.
  - by rewrite list_lookup_insert_ne.
Qed.

Lemma bury_prefix_kept (k : Z) (record : list entry) (i : nat) :
  record !! i = Some TOMBSTONE ->
  bury_prefix k record !! i = Some TOMBSTONE.
Proof.
  unfold bury_prefix. generalize (seq 0 (Z.to_nat k)) as l.
  intros l; revert record; induction l as [|j l IH]; intros record Hi;
    simpl; [done|].
  apply IH. by apply insert_tombstone_kept.
Qed.

Lemma cut_steps_loop_n_steps (template : StateMachineRunner.t) (mid : Z)
    (c : StateMachineRunner.t) :
  mid <= n_steps template ->
  In c (fst (cut_steps_loop template mid)) ->
  n_steps c <= n_steps template.
Proof.
  funelim (cut_steps_loop template mid); intros Hmid Hin.
  - done.
  - pose proof (Z.div_mod (n_steps template + mid) 2 ltac:(lia)).
    pose proof (Z.mod_pos_bound (n_steps template + mid) 2 ltac:(lia)).
    apply gen_yield_In in Hin as [Hc|Hin].
    { apply derive_ok in Hc as (_ & _ & -> & _). lia. }
    apply gen_yield_In in Hin as [Hc|Hin].
    { apply derive_ok in Hc as (_ & _ & -> & _). lia. }
    match goal with
    | IH : forall c', _ -> In c' _ -> _ |- _ => apply IH; [lia|done]
    end.
Qed.

Lemma cut_steps_loop_negative (template : StateMachineRunner.t) :
  n_steps template < 0 -> fst (cut_steps_loop template 0) = [].
Proof.
  intros Hneg. rewrite cut_steps_loop_equation_1.
  pose proof (Z.div_mod (n_steps template + 0) 2 ltac:(lia)).
  pose proof (Z.mod_pos_bound (n_steps template + 0) 2 ltac:(lia)).
  destruct (decide ((n_steps template + 0) `div` 2 = 0)) as [Heq|Hne];
    simpl; [done|].
  unfold derive at 1, StateMachineRunner.__init__.
  replace (0 <=? (n_steps template + 0) `div` 2) with false
    by (symmetry; apply Z.leb_gt; lia).
  done.
Qed.

Lemma discard_pass_kept (k : Z) (indices : list nat)
    (new_record record' : list entry) (random random' : rng) (i : nat) :
  discard_pass k indices new_record random = (Ok record', random') ->
  new_record !! i = Some TOMBSTONE -> record' !! i = Some TOMBSTONE.
Proof.
  revert new_record random.
  induction indices as [|j indices IH]; intros new_record random; simpl.
  - by intros [= <- _].
  - destruct (new_record !! j) as [[|s data]|] eqn:Hj; [eauto| |done].
    destruct (randint 0 9 random) as [x random1].
    destruct (x <=? k); intros Hpass Hi; [|eauto].
    eapply IH; [done|]. by apply insert_tombstone_kept.
Qed.

Lemma random_discards_loop_kept (template c : StateMachineRunner.t)
    (ks : list Z) (random : rng) (i : nat) :
  In c (fst (random_discards_loop template ks random)) ->
  record template !! i = Some TOMBSTONE -> record c !! i = Some TOMBSTONE.
Proof.
  revert random; induction ks as [|k ks IH]; intros random; simpl; [done|].
  destruct (discard_pass _ _ _ _) as [new_record random'] eqn:Hpass.
  intros Hin Hi. apply gen_yield_In in Hin as [Hc|Hin]; [|eauto].
  destruct new_record as [new_record|e]; simpl in Hc; [|done].
  apply derive_ok in Hc as (_ & _ & _ & -> & _).
  by eapply discard_pass_kept.
Qed.

Lemma delete_elements_loop_kept (template c : StateMachineRunner.t)
    (indices : list nat) (deletes : Z) (i : nat) :
  In c (fst (delete_elements_loop template indices deletes)) ->
  record template !! i = Some TOMBSTONE -> record c !! i = Some TOMBSTONE.
Proof.
  revert deletes; induction indices as [|j indices IH]; intros deletes;
    simpl; [done|].
  destruct (10 <=? deletes); [done|].
  destruct (record template !! j) as [[|s data]|]; [eauto| |done].
  intros Hin Hi. apply gen_yield_In in Hin as [Hc|Hin]; [|eauto].
  apply derive_ok in Hc as (_ & _ & _ & -> & _).
  by apply insert_tombstone_kept.
Qed.

Lemma delete_elements_loop_In (template c : StateMachineRunner.t)
    (indices : list nat) (deletes : Z) :
  In c (fst (delete_elements_loop template indices deletes)) ->
  exists j : nat,
    derive template (n_steps template)
      (<[j := TOMBSTONE]> (record template)) = Ok c.
Proof.
  revert deletes; induction indices as [|j indices IH]; intros deletes;
    simpl; [done|].
  destruct (10 <=? deletes); [done|].
  destruct (record template !! j) as [[|s data]|]; [eauto| |done].
  intros Hin. apply gen_yield_In in Hin as [Hc|Hin]; eauto.
Qed.

(** C6.  Every candidate that a truncate move yields has a step count no
    larger than the input's; every candidate that a bulk-discard or a
    single-discard move yields has a tombstone wherever the input has
    one. *)
Theorem truncate_and_discard_moves (random : rng)
    (template c : StateMachineRunner.t) :
  (In c (fst (cut_steps random template)) ->
   n_steps c <= n_steps template) /\
  (In c (fst (random_discards random template)) \/
   In c (fst (delete_elements random template)) ->
   forall i : nat,
     record template !! i = Some TOMBSTONE -> record c !! i = Some TOMBSTONE).
Proof.
  split.
  - unfold cut_steps. intros Hin.
    assert (In c (fst (cut_steps_loop template 0)) ->
            n_steps c <= n_steps template) as Hloop.
    { destruct (decide (n_steps template < 0)) as [Hneg|Hpos].
      - by rewrite cut_steps_loop_negative.
      - apply cut_steps_loop_n_steps. lia. }
    destruct (Z.of_nat (length (record template)) <? n_steps template)
      eqn:Hshort; [|auto].
    apply gen_yield_In in Hin as [Hc|Hin]; [|auto].
    apply derive_ok in Hc as (_ & _ & -> & _).
    apply Z.ltb_lt in Hshort. lia.
  - intros [Hin|Hin] i Hi.
    + unfold random_discards in Hin.
      destruct (Z.of_nat _ <? 10); [done|].
      by eapply random_discards_loop_kept.
    + unfold delete_elements in Hin.
      destruct (shuffle _ random) as [indices random'].
      by eapply delete_elements_loop_kept.
Qed.

Lemma accept_loop_In (strategy : SearchStrategy.t) (i : nat)
    (template c : StateMachineRunner.t) (ts : list Template)
    (err : option exn) :
  In c (fst (accept_loop strategy i template ts err)) ->
  exists (t : Template) (data : basic),
    In t ts /\
    SearchStrategy.to_basic strategy t = Ok data /\
    derive template (n_steps template)
      (<[i := Entry (Some strategy) data]> (record template)) = Ok c.
Proof.
  induction ts as [|t ts IH]; simpl; [done|].
  intros Hin. apply gen_yield_In in Hin as [Hc|Hin].
  - destruct (SearchStrategy.to_basic strategy t) as [data|e] eqn:Hdata;
      simpl in Hc; [|done].
    exists t, data. auto.
  - destruct (IH Hin) as (t' & data & Ht' & Hdata & Hc).
    exists t', data. auto.
Qed.

(** What a wrapped move yields: the target index is live, its payload
    deserializes, and the candidate is the input with that one entry
    rewritten from something the inner move yielded. *)
Lemma convert_simplifier_In (strategy : SearchStrategy.t)
    (simplifier : SearchStrategy.simplifier Template) (i : nat)
    (random : rng) (template c : StateMachineRunner.t) :
  In c (fst (convert_simplifier strategy simplifier i random template)) ->
  exists (strategy' : option SearchStrategy.t) (data : basic)
         (reconstituted t : Template) (new_data : basic),
    record template !! i = Some (Entry strategy' data) /\
    SearchStrategy.from_basic strategy data = Ok reconstituted /\
    In t (fst (simplifier random reconstituted)) /\
    SearchStrategy.to_basic strategy t = Ok new_data /\
    derive template (n_steps template)
      (<[i := Entry (Some strategy) new_data]> (record template)) = Ok c.
Proof.
  unfold convert_simplifier.
  destruct (record template !! i) as [[|strategy' data]|] eqn:Hi;
    [done| |done].
  destruct (SearchStrategy.from_basic strategy data)
    as [reconstituted|e] eqn:Hdata.
  - destruct (simplifier random reconstituted) as [ts err] eqn:Hts.
    intros Hin. apply accept_loop_In in Hin as (t & new_data & Ht & Hnew & Hc).
    exists strategy', data, reconstituted, t, new_data.
    rewrite Hts. auto.
  - by destruct e.
Qed.

(** C10.  A wrapped per-step move yields nothing and raises nothing when the
    payload at its index no longer deserializes through the producing
    strategy (bad data), as it does when the index is out of range or
    tombstoned.  Every candidate it yields, from a record that satisfies the
    constructor's assertions, has the input's parameter seed, template seed,
    step count and seed list, and the input's entry at every other index. *)
Theorem convert_simplifier_frame (strategy : SearchStrategy.t)
    (simplifier : SearchStrategy.simplifier Template) (i : nat)
    (random : rng) (template : StateMachineRunner.t) :
  invariant template ->
  (forall strategy' data msg,
     record template !! i = Some (Entry strategy' data) ->
     SearchStrategy.from_basic strategy data = Raise (BadData msg) ->
     convert_simplifier strategy simplifier i random template = ([], None)) /\
  (record template !! i = None \/ record template !! i = Some TOMBSTONE ->
   convert_simplifier strategy simplifier i random template = ([], None)) /\
  (forall c : StateMachineRunner.t,
     In c (fst (convert_simplifier strategy simplifier i random template)) ->
     parameter_seed c = parameter_seed template /\
     template_seed c = template_seed template /\
     n_steps c = n_steps template /\
     templates c = templates template /\
     length (record c) = length (record template) /\
     forall j : nat, j <> i -> record c !! j = record template !! j).
Proof.
  intros Hinv. split; [|split].
  - intros strategy' data msg Hi Hbad. unfold convert_simplifier.
    by rewrite Hi, Hbad.
  - unfold convert_simplifier. by intros [->| ->].
  - intros c Hin.
    apply convert_simplifier_In in Hin
      as (strategy' & data & reconstituted & t & new_data
          & Hi & Hdata & Ht & Hnew & Hc).
    apply derive_ok in Hc as (Hp & Hts & Hn & Hr & _ & Htpl).
    rewrite Hp, Hts, Hn, Hr, Htpl by (done || lia).
    repeat split; [apply length_insert|].
    intros j Hj. by rewrite list_lookup_insert_ne.
Qed.

Lemma simplifiers_loop_In (template : StateMachineRunner.t)
    (indices : list nat) (random : rng) (i : nat)
    (strategy : SearchStrategy.t) (data : basic) :
  In i indices ->
  record template !! i = Some (Entry (Some strategy) data) ->
  snd (simplifiers_loop template indices random) = None ->
  exists (child_template : Template) (random_i : rng),
    SearchStrategy.from_basic strategy data = Ok child_template /\
    forall simplifier : SearchStrategy.simplifier Template,
      In simplifier
         (fst (fst (SearchStrategy.simplifiers strategy random_i
                      child_template))) ->
      In (convert_simplifier strategy simplifier i)
         (fst (simplifiers_loop template indices random)).
Proof.
  intros Hin Hi. revert random Hin.
  induction indices as [|j indices IH]; intros random; simpl; [done|].
  intros Hin.
  assert (forall random',
            j <> i ->
            snd (simplifiers_loop template indices random') = None ->
            exists child_template random_i,
              SearchStrategy.from_basic strategy data = Ok child_template /\
              forall simplifier,
                In simplifier
                   (fst (fst (SearchStrategy.simplifiers strategy random_i
                                child_template))) ->
                In (convert_simplifier strategy simplifier i)
                   (fst (simplifiers_loop template indices random')))
    as Hlater.
  { intros random' Hne. apply IH. by destruct Hin. }
  destruct (decide (j = i)) as [->|Hne].
  - rewrite Hi.
    destruct (SearchStrategy.from_basic strategy data)
      as [child_template|e] eqn:Hdata; [|done].
    destruct (SearchStrategy.simplifiers strategy random child_template)
      as [[inner err] random'] eqn:Hinner.
    destruct err as [e|]; [done|]. simpl. intros _.
    exists child_template, random. split; [done|].
    rewrite Hinner. simpl. intros simplifier Hs.
    apply in_or_app. left.
    by apply (in_map (fun simplifier =>
                        convert_simplifier strategy simplifier i)).
  - destruct (record template !! j) as [[|[strategy_j|] data_j]|];
      [by apply Hlater| |by apply Hlater|done].
    destruct (SearchStrategy.from_basic strategy_j data_j)
      as [child_j|e]; [|done].
    destruct (SearchStrategy.simplifiers strategy_j random child_j)
      as [[inner err] random'].
    destruct err as [e|]; [done|]. simpl. intros Hrest.
    destruct (Hlater random' Hne Hrest)
      as (child_template & random_i & Hdata & Hall).
    exists child_template, random_i. split; [done|].
    intros simplifier Hs. apply in_or_app. right. by apply Hall.
Qed.

(** C9, for entries that carry their strategy. For every live index whose
    entry carries its producing strategy, an enumeration of shrink moves
    that runs to its end has deserialized that entry's payload through that
    strategy, asked the strategy for shrink moves on that value, and yielded
    each of them wrapped for that index. Applied to any record, a wrapped
    move yields nothing when its index is out of range or tombstoned; each
    candidate it does yield is that record with the entry at that one index
    rewritten to the serialized form of something the inner move yielded
    from the deserialized payload. *)
Theorem simplifiers_delegate (random : rng) (template : StateMachineRunner.t)
    (i : nat) (strategy : SearchStrategy.t) (data : basic) :
  record template !! i = Some (Entry (Some strategy) data) ->
  snd (simplifiers random template) = None ->
  exists (child_template : Template) (random_i : rng),
    SearchStrategy.from_basic strategy data = Ok child_template /\
    forall simplifier : SearchStrategy.simplifier Template,
      In simplifier
         (fst (fst (SearchStrategy.simplifiers strategy random_i
                      child_template))) ->
      In (convert_simplifier strategy simplifier i)
         (fst (simplifiers random template)) /\
      forall (random' : rng) (template' : StateMachineRunner.t),
        (record template' !! i = None \/
         record template' !! i = Some TOMBSTONE ->
         convert_simplifier strategy simplifier i random' template'
         = ([], None)) /\
        forall c : StateMachineRunner.t,
          In c (fst (convert_simplifier strategy simplifier i random'
                       template')) ->
          exists (strategy' : option SearchStrategy.t) (data' : basic)
                 (reconstituted t : Template) (new_data : basic),
            record template' !! i = Some (Entry strategy' data') /\
            SearchStrategy.from_basic strategy data' = Ok reconstituted /\
            In t (fst (simplifier random' reconstituted)) /\
            SearchStrategy.to_basic strategy t = Ok new_data /\
            record c
            = <[i := Entry (Some strategy) new_data]> (record template').
Proof.
  intros Hi Hdone. unfold simplifiers in *. simpl in Hdone.
  destruct (simplifiers_loop_In template (seq 0 (length (record template)))
              random i strategy data)
    as (child_template & random_i & Hdata & Hall); [|done|done|].
  { apply in_seq. apply lookup_lt_Some in Hi. lia. }
  exists child_template, random_i. split; [done|].
  intros simplifier Hs. split; [|intros random' template'; split].
  - simpl. do 3 right. by apply Hall.
  - unfold convert_simplifier. by intros [->| ->].
  - intros c Hin.
    apply convert_simplifier_In in Hin
      as (strategy' & data' & reconstituted & t & new_data
          & Hi' & Hdata' & Ht & Hnew & Hc).
    apply derive_ok in Hc as (_ & _ & _ & Hr & _).
    exists strategy', data', reconstituted, t, new_data. auto.
Qed.

End ShrinkFacts.

Section BuilderFacts.
Context `{PR : PyRandom, PO : PyObjects} {U : Type}.
Context (show : gmap string (list (@RuleBasedStateMachine.var_reference))
                -> string).
Import RuleBasedStateMachine.
Implicit Types (self : RuleBasedStateMachine.t (U:=U)).
Implicit Types (rule : RuleBasedStateMachine.Rule (U:=U)).
Implicit Types (rs : list (RuleBasedStateMachine.Rule (U:=U))).
Implicit Types (cls : RuleBasedStateMachine.class (U:=U)).

(** [bundle] returns what the bundle holds, and leaves every bundle holding
    what it held. *)
Lemma bundle_holds (name : string) self :
  fst (bundle name self) = holds name self /\
  (forall name', holds name' (snd (bundle name self)) = holds name' self) /\
  name_counter (snd (bundle name self)) = name_counter self /\
  names_to_values (snd (bundle name self)) = names_to_values self /\
  user (snd (bundle name self)) = user self.
Proof.
  unfold bundle, holds.
  destruct (bundles self !! name) as [l|] eqn:Hname; simpl; [done|].
  repeat split. intros name'.
  destruct (decide (name = name')) as [<-|Hne].
  - by rewrite lookup_insert_eq, Hname.
  - by rewrite lookup_insert_ne.
Qed.

Lemma convert_arguments_holds (args : list (string * argument))
    self (converted : list (string * strategy_expr))
    (name' : string) :
  holds name' (snd (convert_arguments args self converted)) = holds name' self.
Proof.
  revert self converted.
  induction args as [|[k [name|s]] args IH]; intros self converted; simpl;
    [done| |apply IH].
  pose proof (bundle_holds name self) as (_ & Hholds & _).
  destruct (bundle name self) as [b self']; simpl in *.
  destruct b; simpl; [apply Hholds|]. by rewrite IH.
Qed.

(** A rule is left out as soon as one of its bundle arguments holds
    nothing. *)
Lemma convert_arguments_unsatisfied (args : list (string * argument))
    self (converted : list (string * strategy_expr))
    (k name : string) :
  In (k, Bundle name) args -> holds name self = [] ->
  fst (convert_arguments args self converted) = None.
Proof.
  revert self converted.
  induction args as [|[k' [name'|s]] args IH]; intros self converted;
    simpl; [done| |].
  - pose proof (bundle_holds name' self) as (Hfst & Hholds & _).
    destruct (bundle name' self) as [b self']; simpl in *.
    intros [Heq|Hin] Hempty.
    + injection Heq as -> ->. by rewrite Hfst, Hempty.
    + destruct b; [done|]. apply IH; [done|]. by rewrite Hholds.
  - intros [Heq|Hin] Hempty; [done|]. by apply IH.
Qed.

Lemma steps_loop_excludes rs self
    (strategies : list strategy_expr) rule (d : strategy_expr) :
  unsatisfied rule self ->
  In (TupleStrategy [JustStrategy rule; d])
     (fst (steps_loop rs self strategies))
  -> In (TupleStrategy [JustStrategy rule; d]) strategies.
Proof.
  revert self strategies.
  induction rs as [|r rs IH]; intros self strategies; simpl; [done|].
  intros (k & name & Harg & Hempty).
  pose proof (convert_arguments_holds (arguments r) self [] name) as Hholds.
  destruct (convert_arguments (arguments r) self []) as [converted self']
    eqn:Hconv; simpl in Hholds.
  assert (unsatisfied rule self') as Hstill.
  { exists k, name. by rewrite Hholds. }
  destruct converted as [converted|]; intros Hin.
  - apply (IH _ _ Hstill) in Hin. apply in_app_or in Hin as [Hin|Hin]; [done|].
    destruct Hin as [Heq|[]]. injection Heq as -> _.
    pose proof (convert_arguments_unsatisfied _ self [] _ _ Harg Hempty)
      as Hnone.
    rewrite Hconv in Hnone. done.
  - by apply (IH _ _ Hstill).
Qed.

Lemma steps_loop_stuck rs self
    (strategies : list strategy_expr) :
  (forall rule, In rule rs -> unsatisfied rule self) ->
  fst (steps_loop rs self strategies) = strategies.
Proof.
  revert self strategies.
  induction rs as [|r rs IH]; intros self strategies Hall; simpl; [done|].
  destruct (Hall r (or_introl eq_refl)) as (k & name & Harg & Hempty).
  pose proof (convert_arguments_unsatisfied _ self [] _ _ Harg Hempty)
    as Hnone.
  destruct (convert_arguments (arguments r) self []) as [converted self']
    eqn:Hconv; simpl in Hnone; subst converted.
  apply IH. intros rule Hin.
  destruct (Hall rule (or_intror Hin)) as (k' & name' & Harg' & Hempty').
  exists k', name'. split; [done|].
  pose proof (convert_arguments_holds (arguments r) self [] name') as Hholds.
  rewrite Hconv in Hholds. simpl in Hholds. by rewrite Hholds.
Qed.

(** C7.  [steps] leaves a rule out of the candidate set as soon as one of
    its bundle arguments names a bundle that holds nothing; constructing an
    instance of a class with no rules raises [InvalidDefinition]; from a
    state where no rule is eligible, [steps] raises [InvalidDefinition] with
    the no-progress message, which differs from the no-rules message, and
    it never returns an empty alternative. *)
Theorem steps_excludes_unsatisfied cls self
    (attributes : U) :
  (forall rule (k name : string) (strategies : list strategy_expr)
          self' (d : strategy_expr),
     In (k, Bundle name) (arguments rule) -> holds name self = [] ->
     steps show cls self = (Ok (one_of_strategies strategies), self') ->
     ~ In (TupleStrategy [JustStrategy rule; d]) strategies) /\
  (rules cls = [] ->
   __init__ cls attributes
   = Raise (InvalidDefinition
              ("Type " +:+ __name__ cls +:+ " defines no rules"))) /\
  ((forall rule, In rule (rules cls) ->
      exists k name,
        In (k, Bundle name) (arguments rule) /\ holds name self = []) ->
   exists self',
     steps show cls self
     = (Raise (InvalidDefinition
                 ("No progress can be made from state "
                  +:+ __repr__ show cls self')), self')) /\
  (forall strategies self',
     steps show cls self = (Ok (one_of_strategies strategies), self') ->
     strategies <> []) /\
  (forall state : string,
     "Type " +:+ __name__ cls +:+ " defines no rules"
     <> "No progress can be made from state " +:+ state).
Proof.
  repeat split.
  - intros rule k name strategies self' d Harg Hempty Hsteps Hin.
    unfold steps in Hsteps.
    pose proof (steps_loop_excludes (rules cls) self [] rule d) as Hex.
    destruct (steps_loop (rules cls) self []) as [strategies0 self0].
    simpl in Hex. destruct strategies0 as [|s0 strategies0]; [done|].
    injection Hsteps as <- <-.
    apply Hex in Hin; [done|]. by exists k, name.
  - intros Hnone. unfold __init__. by rewrite Hnone.
  - intros Hall. unfold steps.
    pose proof (steps_loop_stuck (rules cls) self [] Hall) as Hstuck.
    destruct (steps_loop (rules cls) self []) as [strategies self'].
    simpl in Hstuck; subst strategies. by exists self'.
  - intros strategies self' Hsteps. unfold steps in Hsteps.
    destruct (steps_loop (rules cls) self []) as [strategies0 self0].
    destruct strategies0; [done|]. by injection Hsteps as <- <-.
  - intros state. simpl. discriminate.
Qed.

Lemma resolve_lookup (data : list (string * arg)) self
    (kwargs : list (string * Value)) :
  resolve data self = Ok kwargs ->
  Forall2 (fun given passed =>
             fst given = fst passed /\
             match snd given with
             | Ref (VarReference name) =>
                 names_to_values self !! name = Some (snd passed)
             | Lit v => snd passed = v
             end) data kwargs.
Proof.
  revert kwargs.
  induction data as [|[k [[name]|v]] data IH]; intros kwargs; simpl.
  - intros [= <-]. constructor.
  - destruct (names_to_values self !! name) as [v|] eqn:Hname; [|done].
    destruct (resolve data self) as [rest|e]; simpl; [|done].
    intros [= <-]. constructor; [done|]. by apply IH.
  - destruct (resolve data self) as [rest|e]; simpl; [|done].
    intros [= <-]. constructor; [done|]. by apply IH.
Qed.

Lemma append_targets_holds (ts : list string) (name : string)
    self :
  name_counter (append_targets ts name self) = name_counter self /\
  names_to_values (append_targets ts name self) = names_to_values self /\
  user (append_targets ts name self) = user self /\
  forall target,
    holds target (append_targets ts name self)
    = holds target self
      ++ replicate (length (filter (fun t => t = target) ts))
                   (VarReference name).
Proof.
  revert self. induction ts as [|t ts IH]; intros self; simpl.
  - repeat split. intros target. by rewrite app_nil_r.
  - pose proof (bundle_holds t self) as (Hfst & Hholds & Hc & Hn & Hu).
    destruct (bundle t self) as [b self1]; simpl in *.
    destruct (IH (set_bundles self1
                    (<[t := b ++ [VarReference name]]> (bundles self1))))
      as (IHc & IHn & IHu & IHh).
    rewrite IHc, IHn, IHu. simpl. repeat split; try done.
    intros target. rewrite IHh, filter_cons. unfold holds at 1. simpl.
    destruct (decide (t = target)) as [->|Hne].
    + rewrite lookup_insert_eq. simpl. rewrite Hfst, <- app_assoc. done.
    + rewrite lookup_insert_ne by done. fold (holds target self1).
      by rewrite Hholds.
Qed.

Lemma upcoming_name_fresh self :
  handles_below_counter self ->
  names_to_values self !! upcoming_name self = None.
Proof.
  intros Hbelow. apply eq_None_not_Some. intros Hsome.
  destruct (Hbelow _ Hsome) as (k & Hk & Heq).
  unfold upcoming_name in Heq. cbn [String.append] in Heq.
  injection Heq as Heq.
  change (pretty (name_counter self) = pretty k) in Heq.
  apply (inj pretty) in Heq. lia.
Qed.

(** C8, counting repeated targets. [execute_step] replaces every bundle
    reference among the arguments by the value recorded under its handle and
    calls the operation on the result. When the rule has targets and the
    operation returns, the result is recorded under the handle numbered by
    the counter, which no earlier handle uses, the counter goes up by one,
    and every bundle gains that handle once for each time it is listed among
    the targets (once, when listed once); with no targets nothing is
    recorded. *)
Theorem execute_step_records_result rule
    (data : list (string * arg)) self
    (kwargs : list (string * Value)) (result : Value) (attributes : U) :
  handles_below_counter self ->
  resolve data self = Ok kwargs ->
  function rule (user self) kwargs = (Ok result, attributes) ->
  Forall2 (fun given passed =>
             fst given = fst passed /\
             match snd given with
             | Ref (VarReference name) =>
                 names_to_values self !! name = Some (snd passed)
             | Lit v => snd passed = v
             end) data kwargs /\
  exists self',
    execute_step (rule, data) self = (Ok tt, self') /\
    user self' = attributes /\
    handles_below_counter self' /\
    match targets rule with
    | [] =>
        bundles self' = bundles self /\
        name_counter self' = name_counter self /\
        names_to_values self' = names_to_values self
    | _ :: _ =>
        let name := "v" +:+ pretty (name_counter self) in
        names_to_values self !! name = None /\
        name_counter self' = name_counter self + 1 /\
        names_to_values self' = <[name := result]> (names_to_values self) /\
        forall target : string,
          holds target self'
          = holds target self
            ++ replicate
                 (length (filter (fun t => t = target) (targets rule)))
                 (VarReference name)
    end.
Proof.
  intros Hbelow Hresolve Hcall. split; [by apply resolve_lookup|].
  unfold execute_step. rewrite Hresolve, Hcall.
  destruct (targets rule) as [|target0 ts] eqn:Htargets.
  - eexists. split; [done|]. simpl. repeat split. done.
  - unfold new_name, upcoming_name. cbn beta iota.
    cbn [name_counter names_to_values user bundles].
    eexists. split; [reflexivity|].
    match goal with |- context [append_targets ?l ?n ?s] =>
      destruct (append_targets_holds l n s) as (Hc & Hn & Hu & Hh)
    end.
    unfold handles_below_counter. rewrite Hc, Hn, Hu.
    cbn [name_counter names_to_values user bundles].
    split; [done|]. split; [|split; [|split; [done|split; [done|]]]].
    + intros name [v Hname].
      destruct (decide (name = "v" +:+ pretty (name_counter self)))
        as [->|Hne].
      * exists (name_counter self). split; [lia|done].
      * rewrite lookup_insert_ne in Hname by done.
        destruct (Hbelow name (ex_intro _ v Hname)) as (k & Hk & Heq).
        exists k. split; [lia|done].
    + by apply upcoming_name_fresh.
    + intros target. by rewrite Hh.
Qed.

End BuilderFacts.

Section RunnerFacts.
Context `{PR : PyRandom, PO : PyObjects} {M : Type}.
Import StateMachineRunner.
Implicit Types (w : world M) (sm : GenericStateMachine.t M).

(** Unfolds one iteration down to its case analysis. *)
Ltac run_index_cases H :=
  unfold run_index, recorded_template, fresh_template, perform, bind, log,
    on_machine, lift, ret, get_record, store in H;
  cbn [w_record w_machine w_calls] in H;
  repeat (case_match; simplify_eq/=; cbn [w_record w_machine w_calls] in * ).

Lemma run_index_calls (self : StateMachineRunner.t) sm (print_steps : bool)
    (i : nat) w (r : result unit) w1 :
  run_index self sm print_steps i w = (r, w1) ->
  exists calls : list event,
    w_calls w1 = w_calls w ++ calls /\
    Forall (fun e => event_index e = Some i) calls /\
    (forall seed, In (EvDrawTemplate i seed) calls ->
       templates self !! i = Some seed) /\
    (forall seed, In (EvDrawParameter i seed) calls ->
       seed = parameter_seed self).
Proof.
  intros Hrun. run_index_cases Hrun.
  all: eexists; rewrite <- ?app_assoc; (split; [reflexivity|]).
  all: simpl; split; [repeat constructor|].
  all: split; intros seed Hin; decompose [or] Hin; clear Hin;
    (done || congruence).
Qed.

(** An iteration writes the record at its own index only, and never
    shortens it; when it returns, its index is inside the record. *)
Lemma run_index_record (self : StateMachineRunner.t) sm (print_steps : bool)
    (i : nat) w (r : result unit) w1 :
  run_index self sm print_steps i w = (r, w1) ->
  (forall j : nat, j <> i -> (j < length (w_record w))%nat ->
     w_record w1 !! j = w_record w !! j) /\
  (length (w_record w) <= length (w_record w1))%nat /\
  (r = Ok tt -> (i <= length (w_record w))%nat ->
   (S i <= length (w_record w1))%nat).
Proof.
  intros Hrun. run_index_cases Hrun.
  all: repeat split; intros;
    rewrite ?length_insert, ?length_app; simpl; try done; try lia.
  all: try (by rewrite list_lookup_insert_ne by done).
  all: try (by rewrite lookup_app_l by done).
  all: match goal with
       | Hi : _ !! _ = Some _ |- _ => apply lookup_lt_Some in Hi; lia
       end.
Qed.

(** At a tombstoned index an iteration fetches the strategy and does
    nothing else. *)
Lemma run_index_tombstone (self : StateMachineRunner.t) sm
    (print_steps : bool) (i : nat) w (r : result unit) w1 :
  w_record w !! i = Some TOMBSTONE ->
  run_index self sm print_steps i w = (r, w1) ->
  w_calls w1 = w_calls w ++ [EvSteps i] /\
  w_record w1 = w_record w /\
  w_machine w1 = snd (GenericStateMachine.steps sm (w_machine w)) /\
  r = (_ ← fst (GenericStateMachine.steps sm (w_machine w)); Ok tt).
Proof.
  intros Hi Hrun. run_index_cases Hrun; done.
Qed.

(** What the loop adds to the log: events of the indices it ran, whose
    draws use the parameter seed and the seed list entry of their index. *)
Lemma for_each_calls (self : StateMachineRunner.t) sm (print_steps : bool)
    (l : list nat) w (r : result unit) wf (e : event) :
  for_each l (run_index self sm print_steps) w = (r, wf) ->
  In e (w_calls wf) ->
  In e (w_calls w) \/
  ((exists j, In j l /\ event_index e = Some j) /\
   (forall i seed, e = EvDrawTemplate i seed ->
      templates self !! i = Some seed) /\
   (forall i seed, e = EvDrawParameter i seed ->
      seed = parameter_seed self)).
Proof.
  revert w. induction l as [|j l IH]; intros w; simpl.
  - unfold ret. intros [= _ <-]. by left.
  - unfold bind at 1.
    destruct (run_index self sm print_steps j w) as [r0 w1] eqn:Hstep.
    destruct (run_index_calls _ _ _ _ _ _ _ Hstep)
      as (calls & Hcalls & Hidx & Htpl & Hpar).
    assert (In e (w_calls w1) ->
            In e (w_calls w) \/
            ((exists j', In j' (j :: l) /\ event_index e = Some j') /\
             (forall i seed, e = EvDrawTemplate i seed ->
                templates self !! i = Some seed) /\
             (forall i seed, e = EvDrawParameter i seed ->
                seed = parameter_seed self))) as Hhere.
    { rewrite Hcalls. intros Hin. apply in_app_or in Hin as [Hin|Hin];
        [by left|right].
      rewrite Forall_forall in Hidx.
      pose proof (Hidx e (proj2 (list_elem_of_In _ _) Hin)) as He.
      split; [exists j; split; [by left|done]|].
      split; intros i seed ->; simpl in He; injection He as ->; auto. }
    destruct r0 as [[]|e0].
    + intros Hloop Hin. destruct (IH _ Hloop Hin) as [Hold|Hnew]; [auto|].
      right. destruct Hnew as ((j' & Hj' & He) & Hrest).
      split; [exists j'; split; [by right|done]|done].
    + intros [= _ <-]. done.
Qed.

(** A tombstone stays one through the loop, and the only call the loop
    makes for its index is the fetch of the strategy. *)
Lemma for_each_tombstone (self : StateMachineRunner.t) sm
    (print_steps : bool) (l : list nat) w (r : result unit) wf (i : nat) :
  w_record w !! i = Some TOMBSTONE ->
  for_each l (run_index self sm print_steps) w = (r, wf) ->
  w_record wf !! i = Some TOMBSTONE /\
  forall e, In e (w_calls wf) -> event_index e = Some i ->
    e = EvSteps i \/ In e (w_calls w).
Proof.
  revert w. induction l as [|j l IH]; intros w Hi; simpl.
  - unfold ret. intros [= _ <-]. auto.
  - unfold bind at 1.
    destruct (run_index self sm print_steps j w) as [r0 w1] eqn:Hstep.
    assert (w_record w1 !! i = Some TOMBSTONE /\
            forall e, In e (w_calls w1) -> event_index e = Some i ->
              e = EvSteps i \/ In e (w_calls w)) as [Hi1 Hcalls1].
    { destruct (decide (j = i)) as [->|Hne].
      - destruct (run_index_tombstone _ _ _ _ _ _ _ Hi Hstep)
          as (Hcalls & Hrec & _).
        rewrite Hcalls, Hrec. split; [done|].
        intros e Hin _. apply in_app_or in Hin as [Hin|[<-|[]]]; auto.
      - destruct (run_index_record _ _ _ _ _ _ _ Hstep) as (Hother & _).
        rewrite Hother; [|done|by eapply lookup_lt_Some]. split; [done|].
        destruct (run_index_calls _ _ _ _ _ _ _ Hstep)
          as (calls & Hcalls & Hidx & _).
        rewrite Hcalls. intros e Hin He.
        apply in_app_or in Hin as [Hin|Hin]; [auto|].
        rewrite Forall_forall in Hidx.
        pose proof (Hidx e (proj2 (list_elem_of_In _ _) Hin)). congruence. }
    destruct r0 as [[]|e0].
    + intros Hloop. destruct (IH _ Hi1 Hloop) as [Hif Hcallsf].
      split; [done|]. intros e Hin He.
      destruct (Hcallsf e Hin He) as [->|Hin1]; auto.
    + intros [= _ <-]. auto.
Qed.

(** The log of a whole run is the log of its loop followed by the one
    call of [teardown]. *)
Lemma run_unfold (self : StateMachineRunner.t) sm (state_machine : M)
    (print_steps : option bool) (debug : bool) :
  exists (r_loop : result unit) (w_loop : world M),
    for_each (seq 0 (Z.to_nat (n_steps self)))
      (run_index self sm (default debug print_steps))
      {| w_record := record self; w_machine := state_machine;
         w_calls := [] |} = (r_loop, w_loop) /\
    run self sm state_machine print_steps debug
    = (match fst (GenericStateMachine.teardown sm (w_machine w_loop)) with
       | Raise e => Raise e
       | Ok _ => r_loop
       end,
       {| w_record := w_record w_loop;
          w_machine := snd (GenericStateMachine.teardown sm (w_machine w_loop));
          w_calls := w_calls w_loop ++ [EvTeardown] |}).
Proof.
  unfold run.
  destruct (for_each _ _ _) as [r_loop w_loop]. exists r_loop, w_loop.
  split; [done|]. unfold bind, log, on_machine; simpl.
  by destruct (GenericStateMachine.teardown sm (w_machine w_loop)) as [[] ?].
Qed.

(** C4.  Whatever the step loop does -- run to its end, or stop at an
    exception from fetching the strategy, from deserializing or drawing a
    step, or from [execute_step] -- a run calls [teardown] exactly once,
    after the loop, on the machine as the loop left it. *)
Theorem teardown_exactly_once (self : StateMachineRunner.t) sm
    (state_machine : M) (print_steps : option bool) (debug : bool) :
  exists (r_loop : result unit) (w_loop : world M),
    for_each (seq 0 (Z.to_nat (n_steps self)))
      (run_index self sm (default debug print_steps))
      {| w_record := record self; w_machine := state_machine;
         w_calls := [] |} = (r_loop, w_loop) /\
    ~ In EvTeardown (w_calls w_loop) /\
    w_calls (snd (run self sm state_machine print_steps debug))
    = w_calls w_loop ++ [EvTeardown] /\
    w_machine (snd (run self sm state_machine print_steps debug))
    = snd (GenericStateMachine.teardown sm (w_machine w_loop)) /\
    fst (run self sm state_machine print_steps debug)
    = match fst (GenericStateMachine.teardown sm (w_machine w_loop)) with
      | Raise e => Raise e
      | Ok _ => r_loop
      end.
Proof.
  destruct (run_unfold self sm state_machine print_steps debug)
    as (r_loop & w_loop & Hloop & Hrun).
  exists r_loop, w_loop. rewrite Hrun. simpl. repeat split; try done.
  intros Hin.
  destruct (for_each_calls _ _ _ _ _ _ _ _ Hloop Hin)
    as [[]|((j & _ & Hj) & _)].
  done.
Qed.

(** C3, with the fetch of the strategy. A replay leaves every tombstone in
    place and, for a tombstoned index, makes no call but the fetch of the
    current strategy: no deserialization, no draw, no report, no execution;
    that iteration changes neither the record nor, beyond what [steps]
    itself does, the machine. Every template drawn at an index is drawn from
    that index's entry of the seed list, in the replay of the record and in
    the replay of any candidate a single-discard move makes from it. *)
Theorem tombstones_are_skipped (self : StateMachineRunner.t) sm
    (state_machine : M) (print_steps : option bool) (debug : bool) :
  (forall i : nat,
     record self !! i = Some TOMBSTONE ->
     w_record (snd (run self sm state_machine print_steps debug)) !! i
     = Some TOMBSTONE /\
     forall e : event,
       In e (w_calls (snd (run self sm state_machine print_steps debug))) ->
       event_index e = Some i -> e = EvSteps i) /\
  (forall (i : nat) (ps : bool) w (r : result unit) w1,
     w_record w !! i = Some TOMBSTONE ->
     run_index self sm ps i w = (r, w1) ->
     w_calls w1 = w_calls w ++ [EvSteps i] /\
     w_record w1 = w_record w /\
     w_machine w1 = snd (GenericStateMachine.steps sm (w_machine w))) /\
  (forall (i : nat) (seed : Z),
     In (EvDrawTemplate i seed)
        (w_calls (snd (run self sm state_machine print_steps debug))) ->
     templates self !! i = Some seed) /\
  (invariant self ->
   forall (random : rng) (c : StateMachineRunner.t),
     In c (fst (StateMachineSearchStrategy.delete_elements random self)) ->
     forall (i : nat) (seed : Z),
       In (EvDrawTemplate i seed)
          (w_calls (snd (run c sm state_machine print_steps debug))) ->
       templates self !! i = Some seed).
Proof.
  assert (forall (self : StateMachineRunner.t) (i : nat) (seed : Z),
     In (EvDrawTemplate i seed)
        (w_calls (snd (run self sm state_machine print_steps debug))) ->
     templates self !! i = Some seed) as Hdraws.
  { clear self. intros self i seed.
    destruct (run_unfold self sm state_machine print_steps debug)
      as (r_loop & w_loop & Hloop & ->). simpl.
    intros Hin. apply in_app_or in Hin as [Hin|[?|[]]]; [|done].
    destruct (for_each_calls _ _ _ _ _ _ _ _ Hloop Hin)
      as [[]|(_ & Htpl & _)].
    by apply Htpl. }
  split; [|split; [|split]].
  - intros i Hi.
    destruct (run_unfold self sm state_machine print_steps debug)
      as (r_loop & w_loop & Hloop & ->). simpl.
    destruct (for_each_tombstone self sm _ _
                {| w_record := record self; w_machine := state_machine;
                   w_calls := [] |} _ _ i Hi Hloop) as [Hrec Hcalls].
    split; [done|]. intros e Hin He.
    apply in_app_or in Hin as [Hin|[<-|[]]]; [|done].
    by destruct (Hcalls e Hin He) as [->|[]].
  - intros i ps w r w1 Hi Hstep.
    destruct (run_index_tombstone _ _ _ _ _ _ _ Hi Hstep) as (? & ? & ? & _).
    done.
  - apply Hdraws.
  - intros Hinv random c Hin i seed Hdraw.
    unfold StateMachineSearchStrategy.delete_elements in Hin.
    destruct (shuffle _ random) as [indices random'].
    apply delete_elements_loop_In in Hin as [j Hc].
    apply derive_ok in Hc as (_ & _ & _ & _ & _ & Htpl).
    rewrite <- Htpl by (done || lia). by apply Hdraws.
Qed.

Lemma executed_app (calls calls' : list event) :
  executed (calls ++ calls') = executed calls ++ executed calls'.
Proof. apply omap_app. Qed.

(** Replaying an index against the record as the first replay left it: the
    same outcome, the same machine, the same operation executed, and the
    record stays as it is. *)
Lemma run_index_replay (self : StateMachineRunner.t) sm (print_steps : bool)
    (i : nat) w (r : result unit) w1 w' :
  GenericStateMachine.reproducible sm ->
  (i <= length (w_record w))%nat ->
  run_index self sm print_steps i w = (r, w1) ->
  w_machine w' = w_machine w ->
  w_record w' !! i = w_record w1 !! i ->
  exists (w1' : world M) (ops : list Value),
    run_index self sm print_steps i w' = (r, w1') /\
    w_machine w1' = w_machine w1 /\
    w_record w1' = w_record w' /\
    executed (w_calls w1) = executed (w_calls w) ++ ops /\
    executed (w_calls w1') = executed (w_calls w') ++ ops.
Proof.
  intros Hrep Hlen Hrun Hm Hi.
  destruct w' as [record' m' calls']. simpl in Hm, Hi. subst m'.
  run_index_cases Hrun.
  all: rewrite ?list_lookup_insert_eq in Hi by done.
  all: rewrite ?list_lookup_middle in Hi by lia.
  all: repeat match goal with
       | Hs : GenericStateMachine.steps _ _ = (Ok ?s, _),
         Hb : SearchStrategy.to_basic ?s ?t = Ok ?d |- _ =>
           lazymatch goal with
           | _ : SearchStrategy.from_basic s d = Ok t |- _ => fail
           | _ => pose proof (Hrep _ _ _ Hs _ _ Hb)
           end
       end.
  all: unfold run_index, recorded_template, fresh_template, perform, bind,
         log, on_machine, lift, ret, get_record, store;
       cbn [w_record w_machine w_calls].
  all: repeat (match goal with
               | H : ?x = _ |- context [?x] => rewrite H
               end; cbn [w_record w_machine w_calls]).
  all: repeat match goal with
       | |- context [decide (?a < ?b)%nat] =>
           destruct (decide (a < b)%nat);
           [|exfalso;
             match goal with
             | Hl : _ !! _ = Some _ |- _ => apply lookup_lt_Some in Hl; lia
             end]
       end.
  all: rewrite ?list_insert_id by done.
  all: eexists _, _; (split; [reflexivity|]); cbn [w_record w_machine w_calls].
  all: split; [reflexivity|]; split; [reflexivity|].
  all: unfold executed; rewrite !omap_app, <- ?app_assoc; simpl.
  all: split; reflexivity.
Qed.

(** The loop leaves alone the record entries of indices it does not run. *)
Lemma for_each_record (self : StateMachineRunner.t) sm (print_steps : bool)
    (l : list nat) w (r : result unit) wf (i : nat) :
  ~ In i l -> (i < length (w_record w))%nat ->
  for_each l (run_index self sm print_steps) w = (r, wf) ->
  w_record wf !! i = w_record w !! i.
Proof.
  revert w. induction l as [|j l IH]; intros w Hnotin Hlt; simpl.
  - unfold ret. by intros [= _ <-].
  - unfold bind at 1.
    destruct (run_index self sm print_steps j w) as [r0 w1] eqn:Hstep.
    destruct (run_index_record _ _ _ _ _ _ _ Hstep) as (Hother & Hgrow & _).
    assert (w_record w1 !! i = w_record w !! i) as Hi1.
    { apply Hother; [|done]. intros ->. apply Hnotin. by left. }
    destruct r0 as [[]|e0].
    + intros Hloop. rewrite <- Hi1. apply IH; [|lia|done].
      intros Hin. apply Hnotin. by right.
    + by intros [= _ <-].
Qed.

Lemma for_each_replay (self : StateMachineRunner.t) sm (print_steps : bool)
    (k i : nat) w (r : result unit) wf w' :
  GenericStateMachine.reproducible sm ->
  (i <= length (w_record w))%nat ->
  for_each (seq i k) (run_index self sm print_steps) w = (r, wf) ->
  w_machine w' = w_machine w ->
  w_record w' = w_record wf ->
  exists (wf' : world M) (ops : list Value),
    for_each (seq i k) (run_index self sm print_steps) w' = (r, wf') /\
    w_machine wf' = w_machine wf /\
    w_record wf' = w_record wf /\
    executed (w_calls wf) = executed (w_calls w) ++ ops /\
    executed (w_calls wf') = executed (w_calls w') ++ ops.
Proof.
  intros Hrep. revert i w w'.
  induction k as [|k IH]; intros i w w' Hlen; simpl.
  - unfold ret. intros [= <- <-] Hm Hrec. exists w', [].
    rewrite !app_nil_r. done.
  - unfold bind at 1 2.
    destruct (run_index self sm print_steps i w) as [r0 w1] eqn:Hstep.
    destruct (run_index_record _ _ _ _ _ _ _ Hstep) as (_ & _ & Hinside).
    destruct r0 as [[]|e0].
    + intros Hloop Hm Hrec.
      assert (w_record w' !! i = w_record w1 !! i) as Hi.
      { rewrite Hrec. eapply for_each_record; [|by apply Hinside|done].
        rewrite in_seq. lia. }
      destruct (run_index_replay _ _ _ _ _ _ _ w' Hrep Hlen Hstep Hm Hi)
        as (w1' & ops1 & -> & Hm1 & Hrec1 & Hops1 & Hops1').
      destruct (IH (S i) w1 w1' (Hinside eq_refl Hlen) Hloop Hm1)
        as (wf' & ops2 & Hloop' & Hmf & Hrecf & Hops2 & Hops2');
        [congruence|].
      exists wf', (ops1 ++ ops2).
      rewrite Hops2, Hops2', Hops1, Hops1', !app_assoc. done.
    + intros [= <- <-] Hm Hrec.
      assert (w_record w' !! i = w_record w1 !! i) as Hi by by rewrite Hrec.
      destruct (run_index_replay _ _ _ _ _ _ _ w' Hrep Hlen Hstep Hm Hi)
        as (w1' & ops1 & -> & Hm1 & Hrec1 & Hops1 & Hops1').
      exists w1', ops1. rewrite Hrec1. done.
Qed.

(** An iteration reads the seeds of the runner, which a replay leaves
    untouched. *)
Lemma run_index_after_run (self : StateMachineRunner.t) sm
    (print_steps : bool) w :
  run_index (after_run self w) sm print_steps = run_index self sm print_steps.
Proof. reflexivity. Qed.




(** Replaying the record as a first replay left it, against the same
    machine from the same state. *)
Lemma replay_twice (self : StateMachineRunner.t) sm
    (state_machine : M) (print_steps : option bool) (debug : bool) :
  GenericStateMachine.reproducible sm ->
  let first := run self sm state_machine print_steps debug in
  let second :=
    run (after_run self (snd first)) sm state_machine print_steps debug in
  executed (w_calls (snd second)) = executed (w_calls (snd first)) /\
  fst second = fst first /\
  w_machine (snd second) = w_machine (snd first) /\
  w_record (snd second) = w_record (snd first).
Proof.
  intros Hrep first second. subst first second.
  destruct (run_unfold self sm state_machine print_steps debug)
    as (r_loop & w_loop & Hloop & Hrun).
  rewrite Hrun. cbn [fst snd].
  destruct (run_unfold (after_run self
              {| w_record := w_record w_loop;
                 w_machine :=
                   snd (GenericStateMachine.teardown sm (w_machine w_loop));
                 w_calls := w_calls w_loop ++ [EvTeardown] |})
              sm state_machine print_steps debug)
    as (r_loop' & w_loop' & Hloop' & ->).
  cbn [fst snd w_calls w_machine w_record after_run n_steps record] in *.
  rewrite run_index_after_run in Hloop'.
  destruct (for_each_replay self sm _ _ 0 _ _ _
              {| w_record := w_record w_loop; w_machine := state_machine;
                 w_calls := [] |} Hrep (Nat.le_0_l _) Hloop)
    as (wf' & ops & Hsecond & Hm & Hrec & Hops & Hops'); [done|done|].
  rewrite Hsecond in Hloop'. injection Hloop' as <- <-.
  rewrite Hm, Hrec, !executed_app, Hops, Hops'. done.
Qed.


End RunnerFacts.

(** * The theorems at work on the concrete universe *)

Lemma adder_reproducible : GenericStateMachine.reproducible adder.
Proof.
  intros m m' strategy [= <- _] template data [= <-]. reflexivity.
Qed.

Lemma sample_runner_invariant : StateMachineRunner.invariant sample_runner.
Proof. unfold StateMachineRunner.invariant; simpl; lia. Qed.

Lemma fresh_instance_handles :
  RuleBasedStateMachine.handles_below_counter fresh_instance.
Proof. intros name [v Hv]. simpl in Hv. by rewrite lookup_empty in Hv. Qed.

(** The first replay draws steps 2 and 3; index 1 is only fetched. *)
Example sample_first_replay :
  let first := StateMachineRunner.run sample_runner adder 0 None false in
  fst first = Ok tt /\
  StateMachineRunner.executed (StateMachineRunner.w_calls (snd first))
  = [8; 149; 87] /\
  StateMachineRunner.w_calls (snd first)
  = [StateMachineRunner.EvSteps 0;
     StateMachineRunner.EvFromBasic 0 (BInt 8);
     StateMachineRunner.EvExecuteStep 0 8;
     StateMachineRunner.EvSteps 1;
     StateMachineRunner.EvSteps 2;
     StateMachineRunner.EvDrawParameter 2 3;
     StateMachineRunner.EvDrawTemplate 2 30;
     StateMachineRunner.EvExecuteStep 2 149;
     StateMachineRunner.EvSteps 3;
     StateMachineRunner.EvDrawParameter 3 3;
     StateMachineRunner.EvDrawTemplate 3 40;
     StateMachineRunner.EvExecuteStep 3 87;
     StateMachineRunner.EvTeardown].
Proof. repeat split; reflexivity. Qed.

(** A failing step still reaches [teardown]. *)
Example sample_teardown_after_failure :
  let out :=
    StateMachineRunner.run
      {| StateMachineRunner.parameter_seed := 3;
         StateMachineRunner.template_seed := 4;
         StateMachineRunner.n_steps := 2;
         StateMachineRunner.templates := [10; 20];
         StateMachineRunner.record := [Entry None (BInt 301)] |}
      adder 0 None false in
  fst out = Raise (Exception "sum too large") /\
  StateMachineRunner.w_calls (snd out)
  = [StateMachineRunner.EvSteps 0;
     StateMachineRunner.EvFromBasic 0 (BInt 301);
     StateMachineRunner.EvExecuteStep 0 301;
     StateMachineRunner.EvTeardown].
Proof. split; reflexivity. Qed.


(** A tombstoned index is not free of effects: the fetch of the strategy
    comes before the tombstone check.  On a record whose only index is a
    tombstone, a machine that counts fetches has counted one, and a machine
    with no step to offer stops the run. *)
Lemma tombstone_still_fetches_strategy :
  let self : StateMachineRunner.t :=
    {| StateMachineRunner.parameter_seed := 3;
       StateMachineRunner.template_seed := 4;
       StateMachineRunner.n_steps := 1;
       StateMachineRunner.templates := [10];
       StateMachineRunner.record := [TOMBSTONE] |} in
  StateMachineRunner.record self !! 0%nat = Some TOMBSTONE /\
  StateMachineRunner.w_machine
    (snd (StateMachineRunner.run self ticker 0 None false)) = 1 /\
  fst (StateMachineRunner.run self stuck 0 None false)
  = Raise (InvalidDefinition "No progress can be made from state Stuck({})").
Proof. repeat split; reflexivity. Qed.

Lemma tombstones_are_skipped_witness :
  StateMachineRunner.record sample_runner !! 1%nat = Some TOMBSTONE /\
  StateMachineRunner.w_record
    (snd (StateMachineRunner.run sample_runner adder 0 None false)) !! 1%nat
  = Some TOMBSTONE /\
  StateMachineRunner.invariant sample_runner /\
  forall (random : rng) (c : StateMachineRunner.t),
    In c (fst (StateMachineSearchStrategy.delete_elements random
                 sample_runner)) ->
    forall (i : nat) (seed : Z),
      In (StateMachineRunner.EvDrawTemplate i seed)
         (StateMachineRunner.w_calls
            (snd (StateMachineRunner.run c adder 0 None false))) ->
      StateMachineRunner.templates sample_runner !! i = Some seed.
Proof.
  split; [reflexivity|]. split; [|split].
  - apply (proj1 (tombstones_are_skipped sample_runner adder 0 None false)
             1%nat).
    reflexivity.
  - exact sample_runner_invariant.
  - apply (proj2 (proj2 (proj2
             (tombstones_are_skipped sample_runner adder 0 None false)))).
    exact sample_runner_invariant.
Defined.

Lemma truncate_and_discard_moves_witness :
  let shorter : StateMachineRunner.t :=
    {| StateMachineRunner.parameter_seed := 3;
       StateMachineRunner.template_seed := 4;
       StateMachineRunner.n_steps := 2;
       StateMachineRunner.templates := [10; 20; 30; 40];
       StateMachineRunner.record :=
         [Entry (Some integers) (BInt 8); TOMBSTONE] |} in
  let buried : StateMachineRunner.t :=
    {| StateMachineRunner.parameter_seed := 3;
       StateMachineRunner.template_seed := 4;
       StateMachineRunner.n_steps := 4;
       StateMachineRunner.templates := [10; 20; 30; 40];
       StateMachineRunner.record := [TOMBSTONE; TOMBSTONE] |} in
  (In shorter
      (fst (StateMachineSearchStrategy.cut_steps (Random 0) sample_runner)) /\
   StateMachineRunner.n_steps shorter
   <= StateMachineRunner.n_steps sample_runner) /\
  (In buried
      (fst (StateMachineSearchStrategy.delete_elements (Random 0)
              sample_runner)) /\
   StateMachineRunner.record sample_runner !! 1%nat = Some TOMBSTONE /\
   StateMachineRunner.record buried !! 1%nat = Some TOMBSTONE).
Proof.
  intros shorter buried.
  assert (In shorter
            (fst (StateMachineSearchStrategy.cut_steps (Random 0)
                    sample_runner))) as Hshorter
    by (left; reflexivity).
  assert (In buried
            (fst (StateMachineSearchStrategy.delete_elements (Random 0)
                    sample_runner))) as Hburied
    by (left; reflexivity).
  split; [split; [exact Hshorter|]|split; [exact Hburied|split]].
  - exact (proj1 (truncate_and_discard_moves (Random 0) sample_runner
                    shorter) Hshorter).
  - reflexivity.
  - apply (proj2 (truncate_and_discard_moves (Random 0) sample_runner
                    buried) (or_intror Hburied) 1%nat).
    reflexivity.
Defined.

Lemma steps_excludes_unsatisfied_witness :
  In ("x"%string, RuleBasedStateMachine.Bundle "b")
     (RuleBasedStateMachine.arguments pop) /\
  RuleBasedStateMachine.holds "b" fresh_instance = [] /\
  (exists strategies,
     fst (RuleBasedStateMachine.steps sample_show stack_machine
            fresh_instance)
     = Ok (RuleBasedStateMachine.one_of_strategies strategies) /\
     forall d,
       ~ In (RuleBasedStateMachine.TupleStrategy
               [RuleBasedStateMachine.JustStrategy pop; d]) strategies) /\
  RuleBasedStateMachine.__init__
    {| RuleBasedStateMachine.__name__ := "Empty";
       RuleBasedStateMachine.rules := [] |} tt
  = Raise (InvalidDefinition "Type Empty defines no rules") /\
  exists self',
    RuleBasedStateMachine.steps sample_show
      {| RuleBasedStateMachine.__name__ := "Stuck";
         RuleBasedStateMachine.rules := [pop] |} fresh_instance
    = (Raise (InvalidDefinition
                ("No progress can be made from state "
                 +:+ RuleBasedStateMachine.__repr__ sample_show
                       {| RuleBasedStateMachine.__name__ := "Stuck";
                          RuleBasedStateMachine.rules := [pop] |} self')),
       self').
Proof.
  split; [left; reflexivity|]. split; [reflexivity|]. split; [|split].
  - eexists. split; [reflexivity|]. intros d.
    eapply (proj1 (steps_excludes_unsatisfied sample_show stack_machine
                     fresh_instance tt) pop "x"%string "b"%string).
    + left; reflexivity.
    + reflexivity.
    + reflexivity.
  - apply (proj1 (proj2 (steps_excludes_unsatisfied sample_show
             {| RuleBasedStateMachine.__name__ := "Empty";
                RuleBasedStateMachine.rules := [] |} fresh_instance tt))).
    reflexivity.
  - apply (proj1 (proj2 (proj2 (steps_excludes_unsatisfied sample_show
             {| RuleBasedStateMachine.__name__ := "Stuck";
                RuleBasedStateMachine.rules := [pop] |} fresh_instance tt)))).
    intros rule [<-|[]]. exists "x"%string, "b"%string.
    split; [left; reflexivity|reflexivity].
Defined.

(** C8 does not extend to a rule that lists a bundle twice
    among its targets: the bundle gains two entries. *)
Lemma execute_step_duplicate_target :
  RuleBasedStateMachine.targets push_twice = ["b"%string; "b"%string] /\
  RuleBasedStateMachine.holds "b" fresh_instance = [] /\
  fst (RuleBasedStateMachine.execute_step (push_twice, []) fresh_instance)
  = Ok tt /\
  RuleBasedStateMachine.holds "b"
    (snd (RuleBasedStateMachine.execute_step (push_twice, [])
            fresh_instance))
  = [RuleBasedStateMachine.VarReference "v1";
     RuleBasedStateMachine.VarReference "v1"].
Proof. repeat split; reflexivity. Qed.

Lemma execute_step_records_result_witness :
  RuleBasedStateMachine.handles_below_counter fresh_instance /\
  RuleBasedStateMachine.resolve [] fresh_instance = Ok [] /\
  RuleBasedStateMachine.function push tt [] = (Ok (-1), tt) /\
  exists self',
    RuleBasedStateMachine.execute_step (push, []) fresh_instance
    = (Ok tt, self') /\
    RuleBasedStateMachine.name_counter self' = 2 /\
    RuleBasedStateMachine.names_to_values self'
    = <["v1"%string := -1]> ∅ /\
    RuleBasedStateMachine.holds "b" self'
    = [RuleBasedStateMachine.VarReference "v1"].
Proof.
  split; [exact fresh_instance_handles|]. do 2 (split; [reflexivity|]).
  destruct (execute_step_records_result push [] fresh_instance [] (-1) tt
              fresh_instance_handles eq_refl eq_refl)
    as (_ & self' & Hstep & _ & _ & Htargets).
  cbn [RuleBasedStateMachine.targets push] in Htargets.
  destruct Htargets as (_ & Hcounter & Hvalues & Hholds).
  exists self'. split; [exact Hstep|]. split; [exact Hcounter|].
  split; [exact Hvalues|]. exact (Hholds "b"%string).
Defined.

(** C9 does not extend to an entry that was deserialized and
    not yet replayed: it is live, it carries no strategy, and the
    enumeration yields no move for it. *)
Lemma simplifiers_skip_deserialized_entries :
  exists template : StateMachineRunner.t,
    StateMachineSearchStrategy.from_basic Settings_initial
      (BList [BInt 0; BInt 0; BInt 1; BList [BList [BInt 8]]])
    = Ok template /\
    StateMachineRunner.record template !! 0%nat = Some (Entry None (BInt 8)) /\
    StateMachineSearchStrategy.simplifiers (Random 0) template
    = ([StateMachineSearchStrategy.cut_steps;
        StateMachineSearchStrategy.random_discards;
        StateMachineSearchStrategy.delete_elements], None).
Proof. eexists. repeat split; reflexivity. Qed.

Lemma simplifiers_delegate_witness :
  StateMachineRunner.record sample_runner !! 0%nat
  = Some (Entry (Some integers) (BInt 8)) /\
  snd (StateMachineSearchStrategy.simplifiers (Random 0) sample_runner)
  = None /\
  In (StateMachineSearchStrategy.convert_simplifier integers halve 0)
     (fst (StateMachineSearchStrategy.simplifiers (Random 0) sample_runner)).
Proof.
  split; [reflexivity|]. split; [reflexivity|].
  destruct (simplifiers_delegate (Random 0) sample_runner 0 integers (BInt 8)
              eq_refl eq_refl)
    as (child_template & random_i & _ & Hall).
  apply (Hall halve). left; reflexivity.
Defined.

Lemma convert_simplifier_frame_witness :
  let stale : StateMachineRunner.t :=
    {| StateMachineRunner.parameter_seed := 3;
       StateMachineRunner.template_seed := 4;
       StateMachineRunner.n_steps := 1;
       StateMachineRunner.templates := [10];
       StateMachineRunner.record := [Entry (Some integers) (BText "8")] |} in
  StateMachineRunner.invariant stale /\
  SearchStrategy.from_basic integers (BText "8")
  = Raise (BadData "not an integer") /\
  StateMachineSearchStrategy.convert_simplifier integers halve 0 (Random 0)
    stale = ([], None).
Proof.
  intros stale.
  assert (StateMachineRunner.invariant stale) as Hinv
    by (unfold StateMachineRunner.invariant; simpl; lia).
  split; [exact Hinv|]. split; [reflexivity|].
  apply (proj1 (convert_simplifier_frame integers halve 0 (Random 0) stale
                  Hinv) (Some integers) (BText "8") "not an integer");
    reflexivity.
Defined.

Section AdapterMore.
Context `{PR : PyRandom, PO : PyObjects}.
Import StateMachineRunner StateMachineSearchStrategy.

Lemma from_basic_record_spec (items : list basic) (acc : list entry) :
  match mapM entry_of_item items with
  | Some entries => from_basic_record items acc = Ok (acc ++ entries)
  | None => exists msg, from_basic_record items acc = Raise (BadData msg)
  end.
Proof.
  revert acc. induction items as [|item items IH]; intros acc; simpl.
  - by rewrite app_nil_r.
  - destruct item as [| b | n | s | [|payload [|? ?]]]; simpl; eauto.
    + specialize (IH (acc ++ [TOMBSTONE])).
      destruct (mapM entry_of_item items); simpl; [|done].
      by rewrite IH, <- app_assoc.
    + specialize (IH (acc ++ [Entry None payload])).
      destruct (mapM entry_of_item items); simpl; [|done].
      by rewrite IH, <- app_assoc.
Qed.

Lemma mapM_entry_of_item_is_Some (items : list basic) :
  is_Some (mapM entry_of_item items) <->
  Forall (fun item => is_Some (entry_of_item item)) items.
Proof. apply mapM_is_Some. Qed.

(** What [from_basic] checked when it returns, in the order it checks. *)
Lemma from_basic_inv (Settings_default : Settings) (data : basic)
    (r : result StateMachineRunner.t) :
  from_basic Settings_default data = r ->
  (exists msg, r = Raise (BadData msg)) \/
  exists data0 data1 data2 items entries,
    data = BList [data0; data1; data2; BList items] /\
    isinstance data0 integer_types = true /\
    isinstance data1 integer_types = true /\
    isinstance data2 integer_types = true /\
    0 <= int_value data2 <= stateful_step_count Settings_default * 1000 /\
    mapM entry_of_item items = Some entries /\
    r = StateMachineRunner.__init__ (int_value data0) (int_value data1)
          (int_value data2) (Some entries) None.
Proof.
  intros <-. unfold from_basic.
  destruct data as [| b | n | s | l]; try (left; eexists; reflexivity).
  destruct l as [|data0 [|data1 [|data2 [|data3 [|data4 l]]]]];
    try (left; eexists; reflexivity).
  unfold check_data_type.
  cbn -[isinstance int_value Z.ltb Z.mul].
  destruct (isinstance data0 integer_types) eqn:H0;
    cbn -[isinstance int_value Z.ltb Z.mul]; [|left; eexists; reflexivity].
  destruct (isinstance data1 integer_types) eqn:H1;
    cbn -[isinstance int_value Z.ltb Z.mul]; [|left; eexists; reflexivity].
  destruct (isinstance data2 integer_types) eqn:H2;
    cbn -[isinstance int_value Z.ltb Z.mul]; [|left; eexists; reflexivity].
  destruct (isinstance data3 list_type) eqn:H3;
    cbn -[isinstance int_value Z.ltb Z.mul]; [|left; eexists; reflexivity].
  destruct (int_value data2 <? 0) eqn:Hneg; [left; eexists; reflexivity|].
  destruct (stateful_step_count Settings_default * 1000 <? int_value data2)
    eqn:Hbig; [left; eexists; reflexivity|].
  apply Z.ltb_ge in Hneg, Hbig.
  destruct data3 as [| | | |items]; try discriminate H3.
  pose proof (from_basic_record_spec items []) as Hrec.
  destruct (mapM entry_of_item items) as [entries|] eqn:Hitems.
  - right. exists data0, data1, data2, items, entries.
    rewrite Hrec. simpl. repeat split; try done; lia.
  - left. destruct Hrec as [msg ->]. by exists msg.
Qed.

(** X1.  With a default step count of at most 1000, deserialization either
    returns a record or raises [BadData]: no other exception escapes it,
    whatever the data. *)
Theorem from_basic_raises_only_bad_data (Settings_default : Settings)
    (data : basic) :
  stateful_step_count Settings_default <= 1000 ->
  (exists template, from_basic Settings_default data = Ok template) \/
  (exists msg, from_basic Settings_default data = Raise (BadData msg)).
Proof.
  intros Hdefault.
  destruct (from_basic_inv Settings_default data _ eq_refl)
    as [[msg Hbad]|(data0 & data1 & data2 & items & entries & _ & _ & _ & _
                    & Hrange & _ & Hinit)].
  - right. by exists msg.
  - left. rewrite Hinit, init_fresh by lia. eauto.
Qed.

(** What a successful deserialization returns. *)
Lemma from_basic_result (Settings_default : Settings) (data : basic)
    (template : StateMachineRunner.t) :
  from_basic Settings_default data = Ok template ->
  invariant template /\ seeded template /\
  exists data0 data1 data2 items,
    data = BList [data0; data1; data2; BList items] /\
    parameter_seed template = int_value data0 /\
    template_seed template = int_value data1 /\
    n_steps template = int_value data2 /\
    templates template = seeds (int_value data1) (int_value data2) /\
    mapM entry_of_item items = Some (record template).
Proof.
  intros Hok.
  destruct (from_basic_inv Settings_default data _ Hok)
    as [[msg Hbad]|(data0 & data1 & data2 & items & entries & -> & H0 & H1
                    & H2 & Hrange & Hitems & Hinit)]; [done|].
  symmetry in Hinit.
  pose proof (init_invariant _ _ _ _ _ _ Hinit)
    as (Hinv & Hp & Ht & Hn & Hr).
  assert (templates template = seeds (int_value data1) (int_value data2))
    as Htpl.
  { destruct Hinv as [Hin _]. rewrite Hn in Hin.
    rewrite init_fresh in Hinit by done. by injection Hinit as <-. }
  split; [done|]. split.
  { exists (int_value data2). rewrite Hn, Ht. split; [lia|done]. }
  exists data0, data1, data2, items. simpl in Hr. rewrite Hr. done.
Qed.

(** X2.  Deserialization accepts exactly the well-formed data: a list of
    four fields with integer seeds, an integer step count between 0 and
    the smaller of 1000 times the default and 1000000, and a list of steps
    that are each [None] or a one-element list.  The record it returns has
    the seeds and the step count of the data, the seed list that [seeds]
    draws from the template seed, one entry per step with no strategy
    attached, and satisfies the constructor's assertions. *)
Theorem from_basic_accepts_well_formed (Settings_default : Settings)
    (data : basic) :
  ((exists template, from_basic Settings_default data = Ok template) <->
   well_formed Settings_default data) /\
  forall template,
    from_basic Settings_default data = Ok template ->
    invariant template /\ seeded template /\
    exists data0 data1 data2 items,
      data = BList [data0; data1; data2; BList items] /\
      parameter_seed template = int_value data0 /\
      template_seed template = int_value data1 /\
      n_steps template = int_value data2 /\
      templates template = seeds (int_value data1) (int_value data2) /\
      mapM entry_of_item items = Some (record template).
Proof.
  split; [|apply from_basic_result].
  split.
  - intros [template Hok].
    destruct (from_basic_inv Settings_default data _ Hok)
      as [[msg Hbad]|(data0 & data1 & data2 & items & entries & -> & H0 & H1
                      & H2 & Hrange & Hitems & Hinit)]; [done|].
    symmetry in Hinit.
    apply init_invariant in Hinit as ([Hn _] & _ & _ & Hsteps & _).
    simpl. repeat split; try done; try lia.
    apply mapM_entry_of_item_is_Some. by rewrite Hitems.
  - destruct data as [| | | |[|data0 [|data1 [|data2 [|data3 l]]]]];
      try done.
    destruct data3 as [| | | |items]; destruct l; try done.
    intros (H0 & H1 & H2 & Hrange & Hmax & Hitems).
    apply mapM_entry_of_item_is_Some in Hitems as [entries Hitems].
    unfold from_basic, check_data_type.
    cbn -[isinstance int_value Z.ltb Z.mul].
    rewrite H0, H1, H2. cbn -[isinstance int_value Z.ltb Z.mul].
    replace (int_value data2 <? 0) with false
      by (symmetry; apply Z.ltb_ge; lia).
    replace (stateful_step_count Settings_default * 1000 <? int_value data2)
      with false by (symmetry; apply Z.ltb_ge; lia).
    pose proof (from_basic_record_spec items []) as Hrec.
    rewrite Hitems in Hrec. rewrite Hrec. simpl.
    rewrite init_fresh by lia. eauto.
Qed.

(** The round trip within the plausibility bound, in full. *)
Lemma from_basic_to_basic_ok (Settings_default : Settings)
    (template : StateMachineRunner.t) :
  invariant template ->
  n_steps template <= stateful_step_count Settings_default * 1000 ->
  from_basic Settings_default (to_basic template)
  = Ok {| parameter_seed := parameter_seed template;
          template_seed := template_seed template;
          n_steps := n_steps template;
          templates := seeds (template_seed template) (n_steps template);
          record := map forget (record template) |}.
Proof.
  intros [Hrange Hlen] Hplausible.
  unfold from_basic, to_basic; simpl.
  replace (n_steps template <? 0) with false by (symmetry; apply Z.ltb_ge; lia).
  replace (stateful_step_count Settings_default * 1000 <? n_steps template)
    with false by (symmetry; apply Z.ltb_ge; lia).
  rewrite from_basic_record_to_basic; simpl.
  by rewrite init_fresh.
Qed.



Lemma seeds_loop_take (n k : nat) (random : rng) :
  seeds_loop n random = take n (seeds_loop (n + k) random).
Proof.
  revert random. induction n as [|n IH]; intros random; simpl; [done|].
  destruct (getrandbits 64 random) as [x random']. simpl. by rewrite <- IH.
Qed.

Lemma seeds_prefix_aux (starting n m : Z) :
  n <= m ->
  seeds starting n = take (Z.to_nat n) (seeds starting m) /\
  length (seeds starting n) = Z.to_nat n.
Proof.
  intros Hle. split; [|apply seeds_length]. unfold seeds.
  replace (Z.to_nat m) with (Z.to_nat n + (Z.to_nat m - Z.to_nat n))%nat
    by lia.
  apply seeds_loop_take.
Qed.

(** X4.  [seeds] is stable under extension: the seed list for fewer steps
    is a prefix of the seed list for more steps from the same starting
    seed, and it has one seed per step. *)
Theorem seeds_prefix (starting n m : Z) :
  n <= m ->
  seeds starting n = take (Z.to_nat n) (seeds starting m) /\
  length (seeds starting n) = Z.to_nat n.
Proof.
  apply seeds_prefix_aux.
Qed.

(** A copy with a step count within the original's succeeds and changes
    nothing but the step count and the record. *)
Lemma derive_success (template : StateMachineRunner.t) (n : Z)
    (record : list entry) :
  invariant template -> 0 <= n <= n_steps template ->
  derive template n record
  = Ok {| parameter_seed := parameter_seed template;
          template_seed := template_seed template;
          n_steps := n;
          templates := templates template;
          StateMachineRunner.record := record |}.
Proof.
  intros [Hrange Hlen] Hn. unfold derive, StateMachineRunner.__init__.
  replace ((0 <=? n) && (n <=? 1000000)) with true
    by (symmetry; apply andb_true_intro; split; lia).
  cbn [negb].
  destruct (templates template) as [|s l] eqn:Htpl.
  - simpl in Hlen. assert (n = 0) as -> by lia. done.
  - replace (n <=? Z.of_nat (length (s :: l))) with true
      by (symmetry; apply Z.leb_le; lia).
    done.
Qed.

(** X5.  When a record with a seeded seed list is serialized and read back
    (within the plausibility bound), the record read back is seeded again
    and every index below the step count has the seed it had: a replay of
    the stored form draws from the same per-index seeds. *)
Theorem from_basic_to_basic_seeds (Settings_default : Settings)
    (template : StateMachineRunner.t) :
  invariant template -> seeded template ->
  n_steps template <= stateful_step_count Settings_default * 1000 ->
  exists template',
    from_basic Settings_default (to_basic template) = Ok template' /\
    invariant template' /\ seeded template' /\
    forall i : nat,
      (Z.of_nat i < n_steps template) ->
      templates template' !! i = templates template !! i.
Proof.
  intros Hinv (m & Hm & Htpl) Hplausible.
  pose proof (from_basic_to_basic_ok Settings_default template Hinv
                Hplausible) as Hok.
  eexists. split; [exact Hok|].
  destruct (from_basic_result Settings_default _ _ Hok)
    as (Hinv' & Hseeded' & _).
  split; [done|]. split; [done|].
  intros i Hi. cbn [templates]. rewrite Htpl.
  rewrite (proj1 (seeds_prefix_aux (template_seed template)
                    (n_steps template) m Hm)).
  apply lookup_take_lt. lia.
Qed.

Lemma gen_yield_Ok {A : Type} (a : A) (rest : gen A) :
  gen_yield (Ok a) rest = (a :: fst rest, snd rest).
Proof. reflexivity. Qed.

Lemma bury_prefix_lookup (k : Z) (record : list entry) (i : nat) :
  bury_prefix k record !! i
  = if decide (i < Z.to_nat k)%nat
    then (fun _ => TOMBSTONE) <$> record !! i
    else record !! i.
Proof.
  unfold bury_prefix. generalize (Z.to_nat k) as n. clear k.
  intros n. induction n as [|n IH].
  - simpl. by destruct (decide (i < 0)%nat); [lia|].
  - rewrite seq_S, foldl_app. simpl.
    destruct (decide (n = i)) as [->|Hne].
    + destruct (decide (i < S i)%nat); [|lia].
      rewrite decide_False in IH by lia.
      destruct (record !! i) as [e|] eqn:Hi.
      * rewrite list_lookup_insert_eq; [done|].
        by eapply lookup_lt_Some.
      * rewrite list_insert_ge by (by apply lookup_ge_None). done.
    + rewrite list_lookup_insert_ne by done. rewrite IH.
      destruct (decide (i < n)%nat), (decide (i < S n)%nat); (done || lia).
Qed.

Lemma cut_steps_loop_spec (template : StateMachineRunner.t) (mid : Z) :
  invariant template -> 0 <= mid <= n_steps template ->
  snd (cut_steps_loop template mid) = None /\
  forall c, In c (fst (cut_steps_loop template mid)) ->
    same_seeds template c /\
    ((mid < n_steps c < n_steps template /\
      record c = record template) \/
     (n_steps c = n_steps template /\
      exists k, record c = bury_prefix k (record template))).
Proof.
  intros Hinv. funelim (cut_steps_loop template mid); intros Hmid.
  - done.
  - pose proof (Z.div_mod (n_steps template + mid) 2 ltac:(lia)).
    pose proof (Z.mod_pos_bound (n_steps template + mid) 2 ltac:(lia)).
    pose proof Hinv as [Hrange _].
    rewrite !derive_success by (done || lia). rewrite !gen_yield_Ok.
    cbn [fst snd].
    match goal with
    | IH : invariant _ -> _ -> _ /\ _ |- _ =>
        destruct (IH Hinv ltac:(lia)) as [IHnone IHin]
    end.
    split; [done|]. intros c [<-|[<-|Hin]].
    + split; [done|]. left. cbn. split; [lia|done].
    + split; [done|]. right. cbn. eauto.
    + destruct (IHin c Hin) as [Hseeds [[Hn Hr]|Hb]]; (split; [done|]).
      * left. split; [lia|done].
      * by right.
Qed.

(** X6.  On a record that satisfies the constructor's assertions,
    [cut_steps] ends without raising, and each candidate keeps the seeds
    and the seed list and satisfies the assertions again; it either has a
    strictly smaller step count and the same record, or the same step
    count and the record with the entries before some index tombstoned.
    A record of at most one step that is not longer than its entries has
    no truncation at all. *)
Theorem cut_steps_candidates (random : rng)
    (template : StateMachineRunner.t) :
  invariant template ->
  snd (cut_steps random template) = None /\
  (forall c, In c (fst (cut_steps random template)) ->
     invariant c /\ same_seeds template c /\
     ((n_steps c < n_steps template /\ record c = record template) \/
      (n_steps c = n_steps template /\
       exists k : nat,
         forall i : nat,
           record c !! i
           = if decide (i < k)%nat
             then (fun _ => TOMBSTONE) <$> record template !! i
             else record template !! i))) /\
  (n_steps template <= 1 ->
   n_steps template <= Z.of_nat (length (record template)) ->
   cut_steps random template = ([], None)).
Proof.
  intros Hinv. pose proof Hinv as [Hrange Hlen].
  destruct (cut_steps_loop_spec template 0 Hinv ltac:(lia))
    as [Hnone Hloop].
  assert (forall c,
    same_seeds template c ->
    (0 <= n_steps c < n_steps template /\ record c = record template) \/
    (n_steps c = n_steps template /\
     exists k, record c = bury_prefix k (record template)) ->
    invariant c /\ same_seeds template c /\
    ((n_steps c < n_steps template /\ record c = record template) \/
     (n_steps c = n_steps template /\
      exists k : nat,
        forall i : nat,
          record c !! i
          = if decide (i < k)%nat
            then (fun _ => TOMBSTONE) <$> record template !! i
            else record template !! i))) as Hshape.
  { intros c Hseeds Hcases. pose proof Hseeds as (_ & _ & Htpl).
    split; [|split; [done|]].
    - unfold invariant. rewrite Htpl.
      destruct Hcases as [[Hn _]|[Hn _]]; lia.
    - destruct Hcases as [[Hn Hr]|[Hn [k Hr]]]; [left; split; [lia|done]|].
      right. split; [done|]. exists (Z.to_nat k). intros i.
      rewrite Hr. apply bury_prefix_lookup. }
  unfold cut_steps. split; [|split].
  - destruct (Z.of_nat (length (record template)) <? n_steps template)
      eqn:Hshort; [|done].
    apply Z.ltb_lt in Hshort.
    rewrite derive_success by (done || lia). by rewrite gen_yield_Ok.
  - intros c.
    destruct (Z.of_nat (length (record template)) <? n_steps template)
      eqn:Hshort.
    + apply Z.ltb_lt in Hshort.
      rewrite derive_success by (done || lia). rewrite gen_yield_Ok.
      intros [<-|Hin].
      * apply Hshape; [done|]. left. cbn. split; [lia|done].
      * destruct (Hloop c Hin) as [Hseeds Hcases].
        apply Hshape; [done|].
        destruct Hcases as [[Hn Hr]|Hb]; [left; split; [lia|done]|by right].
    + intros Hin. destruct (Hloop c Hin) as [Hseeds Hcases].
      apply Hshape; [done|].
      destruct Hcases as [[Hn Hr]|Hb]; [left; split; [lia|done]|by right].
  - intros Hone Hlong.
    replace (Z.of_nat (length (record template)) <? n_steps template)
      with false by (symmetry; apply Z.ltb_ge; lia).
    rewrite cut_steps_loop_equation_1.
    destruct (decide ((n_steps template + 0) `div` 2 = 0)) as [Heq|Hne];
      [done|].
    exfalso. apply Hne.
    assert (n_steps template = 0 \/ n_steps template = 1) as [-> | ->]
      by lia; done.
Qed.

Lemma discard_pass_spec (k : Z) (indices : list nat)
    (new_record : list entry) (random : rng) :
  Forall (fun i => (i < length new_record)%nat) indices ->
  exists record' random',
    discard_pass k indices new_record random = (Ok record', random') /\
    length record' = length new_record /\
    forall i : nat,
      record' !! i = new_record !! i \/
      (is_Some (new_record !! i) /\ record' !! i = Some TOMBSTONE).
Proof.
  revert new_record random.
  induction indices as [|j indices IH]; intros new_record random Hall; simpl.
  - exists new_record, random. auto.
  - apply Forall_cons in Hall as [Hj Hall].
    destruct (lookup_lt_is_Some_2 _ _ Hj) as [[|s data] Hlookup];
      rewrite Hlookup; [by apply IH|].
    destruct (randint 0 9 random) as [x random1].
    destruct (x <=? k); [|by apply IH].
    destruct (IH (<[j:=TOMBSTONE]> new_record) random1)
      as (record' & random' & Hpass & Hlength & Hentries).
    { by rewrite length_insert. }
    exists record', random'. rewrite length_insert in Hlength.
    split; [done|]. split; [done|]. intros i.
    destruct (decide (j = i)) as [->|Hne].
    + right. split; [eauto|].
      destruct (Hentries i) as [Hsame|[_ Hdead]]; [|done].
      by rewrite Hsame, list_lookup_insert_eq.
    + destruct (Hentries i) as [Hsame|[Hsome Hdead]].
      * left. by rewrite Hsame, list_lookup_insert_ne.
      * right. by rewrite list_lookup_insert_ne in Hsome.
Qed.

Lemma random_discards_loop_spec (template : StateMachineRunner.t)
    (ks : list Z) (random : rng) :
  invariant template ->
  snd (random_discards_loop template ks random) = None /\
  length (fst (random_discards_loop template ks random)) = length ks /\
  forall c, In c (fst (random_discards_loop template ks random)) ->
    same_seeds template c /\ n_steps c = n_steps template /\
    length (record c) = length (record template) /\
    forall i : nat,
      record c !! i = record template !! i \/
      (is_Some (record template !! i) /\ record c !! i = Some TOMBSTONE).
Proof.
  intros Hinv. pose proof Hinv as [Hrange _]. revert random.
  induction ks as [|k ks IH]; intros random; simpl; [done|].
  destruct (discard_pass_spec k (seq 0 (length (record template)))
              (record template) random)
    as (record' & random' & -> & Hlength & Hentries).
  { apply Forall_forall. intros i Hi. apply elem_of_seq in Hi. lia. }
  simpl. rewrite derive_success by (done || lia). rewrite gen_yield_Ok.
  destruct (IH random') as (IHnone & IHlen & IHin). cbn [fst snd length].
  split; [done|]. split; [by rewrite IHlen|].
  intros c [<-|Hin]; [done|by apply IHin].
Qed.

(** X7.  [random_discards] yields nothing when fewer than ten entries are
    live.  Otherwise, on a record that satisfies the constructor's
    assertions, it ends without raising after exactly seventy candidates;
    each keeps the seeds, the seed list, the step count and the length of
    the record, and each of its entries is the input's entry or a
    tombstone put in its place. *)
Theorem random_discards_candidates (random : rng)
    (template : StateMachineRunner.t) :
  ((live (record template) < 10)%nat ->
   random_discards random template = ([], None)) /\
  (invariant template -> (10 <= live (record template))%nat ->
   snd (random_discards random template) = None /\
   length (fst (random_discards random template)) = 70%nat /\
   forall c, In c (fst (random_discards random template)) ->
     invariant c /\ same_seeds template c /\
     n_steps c = n_steps template /\
     length (record c) = length (record template) /\
     forall i : nat,
       record c !! i = record template !! i \/
       (is_Some (record template !! i) /\ record c !! i = Some TOMBSTONE)).
Proof.
  unfold random_discards, live. split.
  - intros Hfew.
    replace (Z.of_nat _ <? 10) with true by (symmetry; apply Z.ltb_lt; lia).
    done.
  - intros Hinv Hmany.
    replace (Z.of_nat _ <? 10) with false by (symmetry; apply Z.ltb_ge; lia).
    destruct (random_discards_loop_spec template
                (k ← seqZ 1 7; _ ← seq 0 10; [k]) random Hinv)
      as (Hnone & Hlen & Hin).
    split; [done|]. split; [by rewrite Hlen|].
    intros c Hc. destruct (Hin c Hc) as (Hseeds & Hn & Hl & Hentries).
    split; [|done]. pose proof Hseeds as (_ & _ & Htpl).
    unfold invariant. rewrite Hn, Htpl. exact Hinv.
Qed.

Lemma live_insert_tombstone (record : list entry) (j : nat)
    (s : option SearchStrategy.t) (data : basic) :
  record !! j = Some (Entry s data) ->
  S (live (<[j := TOMBSTONE]> record)) = live record.
Proof.
  unfold live. revert j.
  induction record as [|e record IH]; intros j Hj; [done|].
  destruct j as [|j]; simpl in *.
  - injection Hj as ->. rewrite !filter_cons. simpl.
    destruct (decide (true = false)); [done|].
    destruct (decide (false = false)); done.
  - rewrite !filter_cons.
    destruct (decide (is_tombstone e = false)); simpl;
      by rewrite (IH j Hj).
Qed.

Lemma delete_elements_loop_spec (template : StateMachineRunner.t)
    (indices : list nat) (deletes : Z) :
  0 <= deletes ->
  (length (fst (delete_elements_loop template indices deletes))
   <= Z.to_nat (10 - deletes))%nat /\
  forall c, In c (fst (delete_elements_loop template indices deletes)) ->
    exists (j : nat) (s : option SearchStrategy.t) (data : basic),
      In j indices /\
      record template !! j = Some (Entry s data) /\
      derive template (n_steps template)
        (<[j := TOMBSTONE]> (record template)) = Ok c.
Proof.
  revert deletes. induction indices as [|j indices IH]; intros deletes Hd;
    simpl.
  - split; [lia|done].
  - destruct (10 <=? deletes) eqn:Hten; [simpl; split; [lia|done]|].
    apply Z.leb_gt in Hten.
    destruct (record template !! j) as [[|s data]|] eqn:Hj.
    + destruct (IH deletes Hd) as [IHlen IHin]. split; [done|].
      intros c Hc. destruct (IHin c Hc) as (j' & s' & d' & Hj' & Hrest).
      exists j', s', d'. split; [by right|done].
    + destruct (IH (deletes + 1) ltac:(lia)) as [IHlen IHin].
      destruct (derive template (n_steps template)
                  (<[j:=TOMBSTONE]> (record template))) as [c0|e] eqn:Hc0;
        simpl; [|split; [lia|done]].
      split; [lia|]. intros c [<-|Hc].
      * exists j, s, data. split; [by left|done].
      * destruct (IHin c Hc) as (j' & s' & d' & Hj' & Hrest).
        exists j', s', d'. split; [by right|done].
    + simpl. split; [lia|done].
Qed.

(** X8.  [delete_elements] yields at most ten candidates, and each of them
    is the input with exactly one live entry, at one of the shuffled
    indices, replaced by a tombstone: it has one live entry less, the same
    step count and the same seeds.  A record with no live entry has no
    candidate. *)
Theorem delete_elements_candidates (random : rng)
    (template : StateMachineRunner.t) :
  (length (fst (delete_elements random template)) <= 10)%nat /\
  (forall c, In c (fst (delete_elements random template)) ->
     exists (j : nat) (s : option SearchStrategy.t) (data : basic),
       In j (fst (shuffle (seq 0 (length (record template))) random)) /\
       record template !! j = Some (Entry s data) /\
       record c = <[j := TOMBSTONE]> (record template) /\
       S (live (record c)) = live (record template) /\
       n_steps c = n_steps template /\
       parameter_seed c = parameter_seed template /\
       template_seed c = template_seed template) /\
  (live (record template) = 0%nat ->
   fst (delete_elements random template) = []).
Proof.
  unfold delete_elements.
  destruct (shuffle (seq 0 (length (record template))) random)
    as [indices random'] eqn:Hshuffle. cbn [fst].
  destruct (delete_elements_loop_spec template indices 0 ltac:(lia))
    as [Hlen Hin].
  assert (forall c, In c (fst (delete_elements_loop template indices 0)) ->
     exists j s data,
       In j indices /\
       record template !! j = Some (Entry s data) /\
       record c = <[j := TOMBSTONE]> (record template) /\
       S (live (record c)) = live (record template) /\
       n_steps c = n_steps template /\
       parameter_seed c = parameter_seed template /\
       template_seed c = template_seed template) as Hshape.
  { intros c Hc. destruct (Hin c Hc) as (j & s & data & Hj & Hlookup & Hd).
    apply derive_ok in Hd as (Hp & Ht & Hn & Hr & _).
    exists j, s, data. rewrite Hr.
    repeat split; try done. by eapply live_insert_tombstone. }
  split; [exact Hlen|]. split; [exact Hshape|].
  intros Hdead.
  destruct (fst (delete_elements_loop template indices 0)) as [|c l] eqn:Hl;
    [done|].
  destruct (Hshape c (or_introl eq_refl)) as (_ & _ & _ & _ & _ & _ & Hlive & _).
  lia.
Qed.

(** X9.  [produce_template] draws the template seed from the random source
    and builds a record with no entries, the adapter's step count and the
    seed list [seeds] draws from the template seed; the record satisfies
    the constructor's assertions.  An adapter configured with a step count
    below 0 or above 1000000 cannot produce a template: the constructor's
    assertion fails. *)
Theorem produce_template_fresh (self : StateMachineSearchStrategy.t)
    (random : rng) (parameter_value : Z) :
  (0 <= program_size self <= 1000000 ->
   exists template,
     produce_template self random parameter_value
     = (Ok template, snd (getrandbits 64 random)) /\
     parameter_seed template = parameter_value /\
     template_seed template = fst (getrandbits 64 random) /\
     n_steps template = program_size self /\
     templates template
     = seeds (fst (getrandbits 64 random)) (program_size self) /\
     record template = [] /\
     invariant template /\ seeded template) /\
  (program_size self < 0 \/ 1000000 < program_size self ->
   fst (produce_template self random parameter_value)
   = Raise AssertionError).
Proof.
  unfold produce_template.
  destruct (getrandbits 64 random) as [template_seed random'] eqn:Hbits.
  cbn [fst snd]. split.
  - intros Hrange. rewrite init_fresh by done. eexists. split; [done|].
    unfold invariant, seeded.
    cbn [parameter_seed StateMachineRunner.template_seed n_steps templates
         record default option_rect from_option].
    rewrite seeds_length. repeat split; try done; try lia.
    exists (program_size self). split; [lia|done].
  - intros Hout. unfold StateMachineRunner.__init__.
    replace ((0 <=? program_size self) && (program_size self <=? 1000000))
      with false; [done|].
    symmetry. apply andb_false_iff.
    destruct Hout; [left; apply Z.leb_gt|right; apply Z.leb_gt]; lia.
Qed.

End AdapterMore.

Section RunnerMore.
Context `{PR : PyRandom, PO : PyObjects} {M : Type}.
Import StateMachineRunner.
Implicit Types (w : world M) (sm : GenericStateMachine.t M).

Ltac run_index_cases H :=
  unfold run_index, recorded_template, fresh_template, perform, bind, log,
    on_machine, lift, ret, get_record, store in H;
  cbn [w_record w_machine w_calls] in H;
  repeat (case_match; simplify_eq/=; cbn [w_record w_machine w_calls] in * ).

(** An iteration lengthens the record by at most its own entry. *)
Lemma run_index_length (self : StateMachineRunner.t) sm (print_steps : bool)
    (i : nat) w (r : result unit) w1 :
  run_index self sm print_steps i w = (r, w1) ->
  (i <= length (w_record w))%nat ->
  (length (w_record w1) <= length (w_record w) `max` S i)%nat.
Proof.
  intros Hrun Hle. run_index_cases Hrun.
  all: rewrite ?length_insert, ?length_app; simpl; lia.
Qed.

(** An iteration that returns either met a tombstone and executed nothing,
    or executed one operation and left at its index an entry with the
    strategy it fetched. *)
Lemma run_index_returns (self : StateMachineRunner.t) sm (print_steps : bool)
    (i : nat) w w1 :
  run_index self sm print_steps i w = (Ok tt, w1) ->
  (i <= length (w_record w))%nat ->
  (w_record w !! i = Some TOMBSTONE /\
   w_record w1 !! i = Some TOMBSTONE /\
   executed (w_calls w1) = executed (w_calls w)) \/
  (w_record w !! i <> Some TOMBSTONE /\
   exists (strategy : SearchStrategy.t) (m : M) (template : Template)
          (data : basic) (value : Value),
     GenericStateMachine.steps sm (w_machine w) = (Ok strategy, m) /\
     SearchStrategy.to_basic strategy template = Ok data /\
     SearchStrategy.reify strategy template = Ok value /\
     w_record w1 !! i = Some (Entry (Some strategy) data) /\
     executed (w_calls w1) = executed (w_calls w) ++ [value]).
Proof.
  intros Hrun Hle. run_index_cases Hrun.
  all: try (left; repeat split; try done;
            unfold executed; rewrite ?omap_app; simpl;
            by rewrite ?app_nil_r).
  all: right; split; [congruence|].
  all: do 5 eexists; (split; [reflexivity|]).
  all: (split; [eassumption|]); (split; [eassumption|]).
  all: split;
    [ first [ by apply list_lookup_insert_eq
            | apply list_lookup_middle; lia ]
    | unfold executed; rewrite !omap_app; simpl;
      by rewrite ?app_nil_r, <- ?app_assoc ].
Qed.
(** An iteration leaves the entries of later indices as they are, absent
    ones included. *)
Lemma run_index_later (self : StateMachineRunner.t) sm (print_steps : bool)
    (i j : nat) w (r : result unit) w1 :
  run_index self sm print_steps i w = (r, w1) ->
  (i <= length (w_record w))%nat -> (i < j)%nat ->
  w_record w1 !! j = w_record w !! j.
Proof.
  intros Hrun Hle Hlt.
  destruct (decide (j < length (w_record w))%nat) as [Hin|Hout].
  - destruct (run_index_record _ _ _ _ _ _ _ Hrun) as (Hother & _).
    apply Hother; [lia|done].
  - pose proof (run_index_length _ _ _ _ _ _ _ Hrun Hle).
    rewrite !lookup_ge_None_2; (done || lia).
Qed.

Lemma skipped_tombstone (record : list entry) (i : nat) :
  skipped record i = true <-> record !! i = Some TOMBSTONE.
Proof.
  unfold skipped. destruct (record !! i) as [[|s d]|]; split; done.
Qed.

Lemma filter_skipped_later (record record' : list entry) (i k : nat) :
  (forall j, (i <= j)%nat -> skipped record' j = skipped record j) ->
  filter (fun j => skipped record' j = false) (seq i k)
  = filter (fun j => skipped record j = false) (seq i k).
Proof.
  revert i. induction k as [|k IH]; intros i Hsame; simpl; [done|].
  rewrite !filter_cons, Hsame by lia.
  rewrite IH by (intros j Hj; apply Hsame; lia). done.
Qed.

(** What a loop that returns has done to the record and how many
    operations it executed. *)
Lemma for_each_returns (self : StateMachineRunner.t) sm (print_steps : bool)
    (k i : nat) w wf :
  for_each (seq i k) (run_index self sm print_steps) w = (Ok tt, wf) ->
  (i <= length (w_record w))%nat ->
  length (w_record wf) = (length (w_record w) `max` (i + k))%nat /\
  (forall j : nat, (i <= j < i + k)%nat ->
     (skipped (w_record w) j = true /\
      w_record wf !! j = Some TOMBSTONE) \/
     (skipped (w_record w) j = false /\
      exists strategy data,
        w_record wf !! j = Some (Entry (Some strategy) data))) /\
  length (executed (w_calls wf))
  = (length (executed (w_calls w))
     + length (filter (fun j => skipped (w_record w) j = false)
                 (seq i k)))%nat.
Proof.
  revert i w. induction k as [|k IH]; intros i w; simpl.
  - unfold ret. intros [= <-] Hle. repeat split; [lia|lia|lia].
  - unfold bind at 1.
    destruct (run_index self sm print_steps i w) as [[[]|e] w1] eqn:Hstep;
      [|done].
    intros Hloop Hle.
    destruct (run_index_record _ _ _ _ _ _ _ Hstep) as (_ & Hgrow & Hinside).
    specialize (Hinside eq_refl Hle).
    pose proof (run_index_length _ _ _ _ _ _ _ Hstep Hle) as Hbound.
    destruct (IH (S i) w1 Hloop Hinside) as (IHlen & IHentries & IHops).
    assert (forall j, (i < j)%nat ->
              skipped (w_record w1) j = skipped (w_record w) j) as Hlater.
    { intros j Hj. unfold skipped.
      by rewrite (run_index_later _ _ _ _ _ _ _ _ Hstep Hle Hj). }
    assert (w_record wf !! i = w_record w1 !! i) as Hkept.
    { eapply for_each_record; [|exact Hinside|exact Hloop].
      rewrite in_seq. lia. }
    split; [lia|]. split.
    + intros j Hj. destruct (decide (j = i)) as [->|Hne].
      * rewrite Hkept.
        destruct (run_index_returns _ _ _ _ _ _ Hstep Hle)
          as [(Hi & Hi1 & _)|(Hi & strategy & m & template & data & value
                              & _ & _ & _ & Hi1 & _)].
        -- left. split; [by apply skipped_tombstone|done].
        -- right. split; [|eauto].
           destruct (skipped (w_record w) i) eqn:Hs; [|done].
           by apply skipped_tombstone in Hs.
      * rewrite <- Hlater by lia. apply IHentries. lia.
    + rewrite IHops, filter_cons.
      rewrite (filter_skipped_later (w_record w) (w_record w1) (S i) k)
        by (intros j Hj; apply Hlater; lia).
      destruct (run_index_returns _ _ _ _ _ _ Hstep Hle)
        as [(Hi & _ & Hops)|(Hi & strategy & m & template & data & value
                            & _ & _ & _ & _ & Hops)].
      * apply skipped_tombstone in Hi. rewrite Hops.
        destruct (decide (skipped (w_record w) i = false)); [congruence|done].
      * rewrite Hops, length_app. simpl.
        destruct (decide (skipped (w_record w) i = false)) as [_|Hs];
          [simpl; lia|].
        exfalso. apply Hi. apply skipped_tombstone.
        by destruct (skipped (w_record w) i).
Qed.

(** Whatever its outcome, a loop leaves the entries beyond its indices as
    they are. *)
Lemma for_each_beyond (self : StateMachineRunner.t) sm (print_steps : bool)
    (k i j : nat) w (r : result unit) wf :
  for_each (seq i k) (run_index self sm print_steps) w = (r, wf) ->
  (i <= length (w_record w))%nat -> (i + k <= j)%nat ->
  w_record wf !! j = w_record w !! j.
Proof.
  revert i w. induction k as [|k IH]; intros i w; simpl.
  - unfold ret. by intros [= _ <-].
  - unfold bind at 1.
    destruct (run_index self sm print_steps i w) as [[[]|e] w1] eqn:Hstep.
    + intros Hloop Hle Hj.
      destruct (run_index_record _ _ _ _ _ _ _ Hstep) as (_ & _ & Hinside).
      rewrite (IH (S i) w1 Hloop (Hinside eq_refl Hle)) by lia.
      eapply run_index_later; [done|done|lia].
    + intros [= _ <-] Hle Hj. eapply run_index_later; [done|done|lia].
Qed.

(** X10.  When a run returns, the record it leaves has an entry for every
    index below the step count (its length is the larger of the old length
    and the step count): a tombstone where the record had one, and
    elsewhere a payload together with the strategy that produced it.
    Whether or not the run returns, entries at and beyond the step count
    are left as they were. *)
Theorem run_fills_record (self : StateMachineRunner.t) sm
    (state_machine : M) (print_steps : option bool) (debug : bool) :
  (fst (run self sm state_machine print_steps debug) = Ok tt ->
   length (w_record (snd (run self sm state_machine print_steps debug)))
   = (length (record self) `max` Z.to_nat (n_steps self))%nat /\
   forall j : nat, (j < Z.to_nat (n_steps self))%nat ->
     (record self !! j = Some TOMBSTONE /\
      w_record (snd (run self sm state_machine print_steps debug)) !! j
      = Some TOMBSTONE) \/
     (record self !! j <> Some TOMBSTONE /\
      exists strategy data,
        w_record (snd (run self sm state_machine print_steps debug)) !! j
        = Some (Entry (Some strategy) data))) /\
  (forall j : nat, (Z.to_nat (n_steps self) <= j)%nat ->
     w_record (snd (run self sm state_machine print_steps debug)) !! j
     = record self !! j).
Proof.
  destruct (run_unfold self sm state_machine print_steps debug)
    as (r_loop & w_loop & Hloop & ->). cbn [fst snd w_record].
  split.
  - intros Hok.
    assert (r_loop = Ok tt) as ->.
    { destruct (fst (GenericStateMachine.teardown sm (w_machine w_loop)));
        [by destruct r_loop as [[]|]|done]. }
    destruct (for_each_returns _ _ _ _ _ _ _ Hloop (Nat.le_0_l _))
      as (Hlen & Hentries & _).
    split; [exact Hlen|]. intros j Hj.
    destruct (Hentries j ltac:(lia)) as [[Hs Hj']|[Hs Hj']].
    + left. split; [by apply skipped_tombstone|done].
    + right. split; [|done]. intros Ht.
      apply skipped_tombstone in Ht. simpl in Hs. congruence.
  - intros j Hj.
    by rewrite (for_each_beyond _ _ _ _ _ j _ _ _ Hloop (Nat.le_0_l _)).
Qed.

(** X11.  A run that returns has executed exactly one operation for each
    index below the step count that the record does not tombstone. *)
Theorem run_executes_live_indices (self : StateMachineRunner.t) sm
    (state_machine : M) (print_steps : option bool) (debug : bool) :
  fst (run self sm state_machine print_steps debug) = Ok tt ->
  length (executed
            (w_calls (snd (run self sm state_machine print_steps debug))))
  = length (filter (fun j => skipped (record self) j = false)
              (seq 0 (Z.to_nat (n_steps self)))).
Proof.
  destruct (run_unfold self sm state_machine print_steps debug)
    as (r_loop & w_loop & Hloop & ->). cbn [fst snd w_calls].
  intros Hok.
  assert (r_loop = Ok tt) as ->.
  { destruct (fst (GenericStateMachine.teardown sm (w_machine w_loop)));
      [by destruct r_loop as [[]|]|done]. }
  destruct (for_each_returns _ _ _ _ _ _ _ Hloop (Nat.le_0_l _))
    as (_ & _ & Hops).
  rewrite executed_app. simpl. rewrite app_nil_r. exact Hops.
Qed.

(** The calls of one iteration: the fetch first; then, when reports are
    on, no execution without its report right before it, and when they are
    off, no report at all; and a draw only when the record had nothing
    usable at the index. *)
Lemma run_index_log (self : StateMachineRunner.t) sm (print_steps : bool)
    (i : nat) w (r : result unit) w1 :
  run_index self sm print_steps i w = (r, w1) ->
  exists calls : list event,
    w_calls w1 = w_calls w ++ EvSteps i :: calls /\
    (print_steps = true -> announced (Some (EvSteps i)) calls) /\
    (print_steps = false -> forall j value, ~ In (EvPrintStep j value) calls) /\
    (forall j seed,
       In (EvDrawParameter j seed) calls \/ In (EvDrawTemplate j seed) calls ->
       w_record w !! i = None \/
       exists s data strategy m msg,
         w_record w !! i = Some (Entry s data) /\
         GenericStateMachine.steps sm (w_machine w) = (Ok strategy, m) /\
         SearchStrategy.from_basic strategy data = Raise (BadData msg)).
Proof.
  intros Hrun. run_index_cases Hrun.
  all: eexists; rewrite <- ?app_assoc; simpl; (split; [reflexivity|]).
  all: split; [intros; simpl; repeat split; done|].
  all: split;
    [intros; simpl; intros Hin; decompose [or] Hin; done|].
  all: intros j seed Hin; simpl in Hin.
  all: try (decompose [or] Hin; done).
  all: try (by left).
  all: right; do 5 eexists; repeat split; done.
Qed.

Lemma announced_weaken (previous q : option event) (calls : list event) :
  announced None calls -> announced previous calls.
Proof.
  destruct calls as [|e calls]; simpl; [done|].
  intros [He Hrest]. split; [|done]. by destruct e.
Qed.

Lemma announced_app (previous : option event) (calls calls' : list event) :
  announced previous calls -> announced None calls' ->
  announced previous (calls ++ calls').
Proof.
  revert previous. induction calls as [|e calls IH]; intros previous; simpl.
  - intros _ H'. by apply (announced_weaken previous None).
  - intros [He Hrest] H'. split; [done|]. by apply IH.
Qed.

Lemma for_each_log (self : StateMachineRunner.t) sm (print_steps : bool)
    (l : list nat) w (r : result unit) wf :
  for_each l (run_index self sm print_steps) w = (r, wf) ->
  (print_steps = true -> announced None (w_calls w) ->
   announced None (w_calls wf)) /\
  (print_steps = false -> forall j value,
     In (EvPrintStep j value) (w_calls wf) ->
     In (EvPrintStep j value) (w_calls w)).
Proof.
  revert w. induction l as [|i l IH]; intros w; simpl.
  - unfold ret. intros [= _ <-]. auto.
  - unfold bind at 1.
    destruct (run_index self sm print_steps i w) as [r0 w1] eqn:Hstep.
    destruct (run_index_log _ _ _ _ _ _ _ Hstep)
      as (calls & Hcalls & Hon & Hoff & _).
    assert ((print_steps = true -> announced None (w_calls w) ->
             announced None (w_calls w1)) /\
            (print_steps = false -> forall j value,
               In (EvPrintStep j value) (w_calls w1) ->
               In (EvPrintStep j value) (w_calls w))) as [Hon1 Hoff1].
    { rewrite Hcalls. split.
      - intros Hps Hw. apply announced_app; [done|]. simpl. auto.
      - intros Hps j value Hin. apply in_app_or in Hin as [Hin|[Hin|Hin]];
          [done|done|]. by destruct (Hoff Hps j value). }
    destruct r0 as [[]|e0].
    + intros Hloop. destruct (IH _ Hloop) as [IHon IHoff]. split; auto.
    + intros [= _ <-]. auto.
Qed.

(** X12.  With reports on, a run calls [print_step] right before every call
    of [execute_step], for the same index and value; with reports off it
    never calls [print_step].  When [print_steps] is not given, the
    verbosity decides. *)
Theorem run_reports_before_executing (self : StateMachineRunner.t) sm
    (state_machine : M) (print_steps : option bool) (debug : bool) :
  (default debug print_steps = true ->
   announced None
     (w_calls (snd (run self sm state_machine print_steps debug)))) /\
  (default debug print_steps = false ->
   forall j value,
     ~ In (EvPrintStep j value)
          (w_calls (snd (run self sm state_machine print_steps debug)))).
Proof.
  destruct (run_unfold self sm state_machine print_steps debug)
    as (r_loop & w_loop & Hloop & ->). cbn [fst snd w_calls].
  destruct (for_each_log _ _ _ _ _ _ _ Hloop) as [Hon Hoff].
  cbn [w_calls] in Hon, Hoff. split.
  - intros Hps. apply announced_app; [by apply Hon|]. simpl. auto.
  - intros Hps j value Hin. apply in_app_or in Hin as [Hin|[Hin|[]]];
      [|done]. by destruct (Hoff Hps j value Hin).
Qed.



(** X14.  Replaying a record a second time, against the same machine from
    the same state and with strategies that read back what they serialized,
    changes nothing more: the second replay leaves the record and the
    machine exactly as the first replay left them, with the same outcome. *)
Theorem replay_settles_record (self : StateMachineRunner.t) sm
    (state_machine : M) (print_steps : option bool) (debug : bool) :
  GenericStateMachine.reproducible sm ->
  let first := run self sm state_machine print_steps debug in
  let second :=
    run (after_run self (snd first)) sm state_machine print_steps debug in
  w_record (snd second) = w_record (snd first) /\
  w_machine (snd second) = w_machine (snd first) /\
  fst second = fst first /\
  after_run (after_run self (snd first)) (snd second)
  = after_run self (snd first).
Proof.
  intros Hrep first second.
  destruct (replay_twice self sm state_machine print_steps debug Hrep)
    as (_ & Hr & Hm & Hrec).
  fold first in Hr, Hm, Hrec. fold second in Hr, Hm, Hrec.
  repeat split; try done.
  unfold after_run. cbn. by rewrite Hrec.
Qed.

End RunnerMore.

(** ** The further properties at work on the concrete universe *)

(** A record of two steps whose seed list is what [seeds] draws. *)
Lemma seeded_runner_facts :
  let self : StateMachineRunner.t :=
    {| StateMachineRunner.parameter_seed := 3;
       StateMachineRunner.template_seed := 4;
       StateMachineRunner.n_steps := 2;
       StateMachineRunner.templates := seeds 4 2;
       StateMachineRunner.record :=
         [Entry (Some integers) (BInt 8); TOMBSTONE] |} in
  StateMachineRunner.invariant self /\ seeded self.
Proof.
  intros self. split.
  - unfold StateMachineRunner.invariant. simpl. lia.
  - exists 2. split; [simpl; lia|reflexivity].
Qed.

(** A record of ten live entries. *)
Lemma ten_live_facts :
  let self : StateMachineRunner.t :=
    {| StateMachineRunner.parameter_seed := 3;
       StateMachineRunner.template_seed := 4;
       StateMachineRunner.n_steps := 10;
       StateMachineRunner.templates := seeds 4 10;
       StateMachineRunner.record := replicate 10 (Entry None (BInt 1)) |} in
  StateMachineRunner.invariant self /\
  (10 <= live (StateMachineRunner.record self))%nat.
Proof.
  intros self. split.
  - unfold StateMachineRunner.invariant. simpl. lia.
  - unfold live. simpl. lia.
Qed.

Lemma from_basic_raises_only_bad_data_witness :
  stateful_step_count Settings_initial <= 1000 /\
  ((exists template,
      StateMachineSearchStrategy.from_basic Settings_initial (BText "run")
      = Ok template) \/
   (exists msg,
      StateMachineSearchStrategy.from_basic Settings_initial (BText "run")
      = Raise (BadData msg))).
Proof.
  assert (stateful_step_count Settings_initial <= 1000) as Hsmall
    by (simpl; lia).
  split; [exact Hsmall|].
  exact (from_basic_raises_only_bad_data Settings_initial (BText "run")
           Hsmall).
Defined.

Lemma from_basic_accepts_well_formed_witness :
  let data := BList [BInt 0; BInt 0; BInt 1; BList [BList [BInt 8]]] in
  well_formed Settings_initial data /\
  exists template,
    StateMachineSearchStrategy.from_basic Settings_initial data
    = Ok template /\
    StateMachineRunner.invariant template /\ seeded template /\
    StateMachineRunner.record template = [Entry None (BInt 8)].
Proof.
  intros data.
  destruct (from_basic_accepts_well_formed Settings_initial data)
    as [Hiff Hshape].
  assert (well_formed Settings_initial data) as Hwf.
  { simpl. repeat split; try lia.
    constructor; [by eexists|constructor]. }
  split; [exact Hwf|].
  destruct (proj2 Hiff Hwf) as [template Hok]. exists template.
  split; [exact Hok|].
  destruct (Hshape template Hok)
    as (Hinv & Hseeded & d0 & d1 & d2 & items & Hdata & _ & _ & _ & _ & Hrec).
  split; [exact Hinv|]. split; [exact Hseeded|].
  injection Hdata as <- <- <- <-.
  change (Some [Entry None (BInt 8)]
          = Some (StateMachineRunner.record template)) in Hrec.
  by injection Hrec as <-.
Defined.


Lemma seeds_prefix_witness :
  2 <= 4 /\
  seeds 4 2 = take 2 (seeds 4 4) /\ length (seeds 4 2) = 2%nat.
Proof.
  assert (2 <= 4) as Hle by lia.
  split; [exact Hle|]. exact (seeds_prefix 4 2 4 Hle).
Defined.

Lemma from_basic_to_basic_seeds_witness :
  let self : StateMachineRunner.t :=
    {| StateMachineRunner.parameter_seed := 3;
       StateMachineRunner.template_seed := 4;
       StateMachineRunner.n_steps := 2;
       StateMachineRunner.templates := seeds 4 2;
       StateMachineRunner.record :=
         [Entry (Some integers) (BInt 8); TOMBSTONE] |} in
  StateMachineRunner.invariant self /\ seeded self /\
  StateMachineRunner.n_steps self
  <= stateful_step_count Settings_initial * 1000 /\
  exists template',
    StateMachineSearchStrategy.from_basic Settings_initial
      (StateMachineSearchStrategy.to_basic self) = Ok template' /\
    StateMachineRunner.templates template' !! 1%nat
    = StateMachineRunner.templates self !! 1%nat.
Proof.
  intros self.
  destruct seeded_runner_facts as [Hinv Hseeded]. fold self in Hinv, Hseeded.
  assert (StateMachineRunner.n_steps self
          <= stateful_step_count Settings_initial * 1000) as Hbound
    by (simpl; lia).
  split; [exact Hinv|]. split; [exact Hseeded|]. split; [exact Hbound|].
  destruct (from_basic_to_basic_seeds Settings_initial self Hinv Hseeded
              Hbound) as (template' & Hok & _ & _ & Hsame).
  exists template'. split; [exact Hok|]. apply Hsame. simpl. lia.
Defined.

Lemma cut_steps_candidates_witness :
  StateMachineRunner.invariant sample_runner /\
  snd (StateMachineSearchStrategy.cut_steps (Random 0) sample_runner) = None /\
  forall c,
    In c (fst (StateMachineSearchStrategy.cut_steps (Random 0)
                 sample_runner)) ->
    StateMachineRunner.invariant c /\ same_seeds sample_runner c.
Proof.
  split; [exact sample_runner_invariant|].
  destruct (cut_steps_candidates (Random 0) sample_runner
              sample_runner_invariant) as (Hends & Heach & _).
  split; [exact Hends|]. intros c Hc.
  destruct (Heach c Hc) as (Hinv & Hseeds & _). by split.
Defined.

Lemma random_discards_candidates_witness :
  let self : StateMachineRunner.t :=
    {| StateMachineRunner.parameter_seed := 3;
       StateMachineRunner.template_seed := 4;
       StateMachineRunner.n_steps := 10;
       StateMachineRunner.templates := seeds 4 10;
       StateMachineRunner.record := replicate 10 (Entry None (BInt 1)) |} in
  ((live (StateMachineRunner.record sample_runner) < 10)%nat /\
   StateMachineSearchStrategy.random_discards (Random 0) sample_runner
   = ([], None)) /\
  (StateMachineRunner.invariant self /\
   (10 <= live (StateMachineRunner.record self))%nat /\
   snd (StateMachineSearchStrategy.random_discards (Random 0) self) = None /\
   length (fst (StateMachineSearchStrategy.random_discards (Random 0) self))
   = 70%nat).
Proof.
  intros self.
  destruct ten_live_facts as [Hinv Hlive]. fold self in Hinv, Hlive.
  assert (live (StateMachineRunner.record sample_runner) < 10)%nat as Hfew
    by (unfold live; simpl; lia).
  split.
  - split; [exact Hfew|].
    exact (proj1 (random_discards_candidates (Random 0) sample_runner) Hfew).
  - split; [exact Hinv|]. split; [exact Hlive|].
    destruct (proj2 (random_discards_candidates (Random 0) self) Hinv Hlive)
      as (Hends & Hcount & _).
    by split.
Defined.

Lemma delete_elements_candidates_witness :
  let buried : StateMachineRunner.t :=
    {| StateMachineRunner.parameter_seed := 3;
       StateMachineRunner.template_seed := 4;
       StateMachineRunner.n_steps := 4;
       StateMachineRunner.templates := [10; 20; 30; 40];
       StateMachineRunner.record := [TOMBSTONE; TOMBSTONE] |} in
  In buried
     (fst (StateMachineSearchStrategy.delete_elements (Random 0)
             sample_runner)) /\
  S (live (StateMachineRunner.record buried))
  = live (StateMachineRunner.record sample_runner) /\
  (live (StateMachineRunner.record buried) = 0%nat /\
   fst (StateMachineSearchStrategy.delete_elements (Random 0) buried) = []).
Proof.
  intros buried.
  assert (In buried
            (fst (StateMachineSearchStrategy.delete_elements (Random 0)
                    sample_runner))) as Hburied
    by (left; reflexivity).
  split; [exact Hburied|]. split.
  - destruct (proj1 (proj2 (delete_elements_candidates (Random 0)
                              sample_runner)) buried Hburied)
      as (j & s & data & _ & _ & _ & Hlive & _).
    exact Hlive.
  - assert (live (StateMachineRunner.record buried) = 0%nat) as Hnone
      by reflexivity.
    split; [exact Hnone|].
    exact (proj2 (proj2 (delete_elements_candidates (Random 0) buried))
             Hnone).
Defined.

Lemma produce_template_fresh_witness :
  let self := StateMachineSearchStrategy.__init__ Settings_initial None in
  0 <= StateMachineSearchStrategy.program_size self <= 1000000 /\
  (exists template,
     StateMachineSearchStrategy.produce_template self (Random 0) 3
     = (Ok template, snd (getrandbits 64 (Random 0))) /\
     StateMachineRunner.n_steps template = 50 /\
     StateMachineRunner.record template = [] /\
     StateMachineRunner.invariant template) /\
  fst (StateMachineSearchStrategy.produce_template
         (StateMachineSearchStrategy.__init__ Settings_initial
            (Some {| stateful_step_count := 1000001 |}))
         (Random 0) 3)
  = Raise AssertionError.
Proof.
  intros self.
  assert (0 <= StateMachineSearchStrategy.program_size self <= 1000000)
    as Hrange by (simpl; lia).
  split; [exact Hrange|]. split.
  - destruct (proj1 (produce_template_fresh self (Random 0) 3) Hrange)
      as (template & Hok & _ & _ & Hn & _ & Hrec & Hinv & _).
    exists template. split; [exact Hok|]. split; [exact Hn|].
    split; [exact Hrec|exact Hinv].
  - apply (proj2 (produce_template_fresh
                    (StateMachineSearchStrategy.__init__ Settings_initial
                       (Some {| stateful_step_count := 1000001 |}))
                    (Random 0) 3)).
    right. simpl. lia.
Defined.

Lemma run_fills_record_witness :
  let out := StateMachineRunner.run sample_runner adder 0 None false in
  fst out = Ok tt /\
  length (StateMachineRunner.w_record (snd out)) = 4%nat /\
  StateMachineRunner.w_record (snd out) !! 1%nat = Some TOMBSTONE /\
  StateMachineRunner.w_record (snd out) !! 4%nat = None.
Proof.
  intros out.
  assert (fst out = Ok tt) as Hok by reflexivity.
  split; [exact Hok|].
  destruct (run_fills_record sample_runner adder 0 None false)
    as [Hfilled Hbeyond].
  destruct (Hfilled Hok) as [Hlen Hentries].
  split; [exact Hlen|]. split.
  - destruct (Hentries 1%nat ltac:(simpl; lia)) as [[_ Hkept]|[Hlive _]];
      [exact Hkept|]. by destruct Hlive.
  - exact (Hbeyond 4%nat ltac:(simpl; lia)).
Defined.

Lemma run_executes_live_indices_witness :
  let out := StateMachineRunner.run sample_runner adder 0 None false in
  fst out = Ok tt /\
  length (StateMachineRunner.executed (StateMachineRunner.w_calls (snd out)))
  = 3%nat.
Proof.
  intros out.
  assert (fst out = Ok tt) as Hok by reflexivity.
  split; [exact Hok|].
  exact (run_executes_live_indices sample_runner adder 0 None false Hok).
Defined.

Lemma run_reports_before_executing_witness :
  announced None
    (StateMachineRunner.w_calls
       (snd (StateMachineRunner.run sample_runner adder 0 (Some true)
               false))) /\
  ~ In (StateMachineRunner.EvPrintStep 0 8)
       (StateMachineRunner.w_calls
          (snd (StateMachineRunner.run sample_runner adder 0 None false))).
Proof.
  split.
  - exact (proj1 (run_reports_before_executing sample_runner adder 0
                    (Some true) false) eq_refl).
  - exact (proj2 (run_reports_before_executing sample_runner adder 0
                    None false) eq_refl 0%nat 8).
Defined.


Lemma replay_settles_record_witness :
  GenericStateMachine.reproducible adder /\
  let first := StateMachineRunner.run sample_runner adder 0 None false in
  let second :=
    StateMachineRunner.run
      (StateMachineRunner.after_run sample_runner (snd first))
      adder 0 None false in
  StateMachineRunner.w_record (snd second)
  = StateMachineRunner.w_record (snd first) /\
  fst second = fst first.
Proof.
  split; [exact adder_reproducible|]. intros first second.
  destruct (replay_settles_record sample_runner adder 0 None false
              adder_reproducible) as (Hrec & _ & Hout & _).
  split; [exact Hrec|exact Hout].
Defined.
